(** * Smart-email-miner: webhook gateway, ingestion pipeline, renewal scheduler

    A shallow embedding of [email_webhook.py] and [subscription.py].

    Python values that come out of [json.load], [response.json()] and
    [request.json()] are modelled by the type [value]; Python exceptions by
    [exn]; code that mutates globals, files or the scheduler is written in a
    state-and-exception monad in which the state written before a [raise]
    is kept, as in Python.

    A Python [str] is modelled by the string of its bytes in UTF-8; a lone
    surrogate, which a JSON escape can produce, by the three bytes
    [ED A0..BF 80..BF] that this encoding would give it.

    Console output is modelled where the text printed comes from a
    notification or from a message and [print] can raise on it: in the
    [try] block of the webhook handler and at the start of the ingestion.
    The other calls of [print] in [email_webhook.py] write constants, the
    text of an exception, or an id that has been printed before, and are
    left out.  Those of [subscription.py] write constants, the text of a
    response, the request body as its [repr], and subscription ids, which
    are taken to be printable; they are left out too. *)

From Stdlib Require Import List String Ascii ZArith Bool Lia DecimalString.
Import ListNotations.
Local Open Scope string_scope.
Local Open Scope list_scope.
Set Warnings "-register-all".

(** ** Python values *)

(** JSON-shaped Python objects.  Numbers are the integers (floats do not
    occur in the fields the code inspects); a [dict] is its item list, in
    insertion order, with pairwise different keys. *)
Inductive value : Type :=
| VNone
| VBool (b : bool)
| VInt (n : Z)
| VStr (s : string)
| VList (l : list value)
| VDict (items : list (string * value)).

Inductive exn : Type :=
| AttributeError
| TypeError
| KeyError
| JSONDecodeError
| UnicodeDecodeError
| UnicodeEncodeError
| OtherError (name : string).

Inductive res (A : Type) : Type :=
| Ok (a : A)
| Raise (e : exn).
Arguments Ok {A} a.
Arguments Raise {A} e.

(** What [json.load] / [json.loads] makes of a sequence of bytes: it
    raises [JSONDecodeError], or it returns a value, or it raises another
    exception ([UnicodeDecodeError] for bytes that are not text in the
    expected encoding, [RecursionError] for a nesting too deep).  Files
    and request bodies that hold JSON are represented by this outcome;
    [json.dump v] writes bytes that decode to [v]. *)
Inductive decoded : Type :=
| NotJSON
| JSON (v : value)
| Fails (e : exn).

(** [bool(v)] *)
Definition truthy (v : value) : bool :=
  match v with
  | VNone => false
  | VBool b => b
  | VInt n => negb (Z.eqb n 0)
  | VStr s => negb (String.eqb s "")
  | VList l => match l with [] => false | _ :: _ => true end
  | VDict kv => match kv with [] => false | _ :: _ => true end
  end.

Fixpoint assoc {A : Type} (k : string) (kv : list (string * A)) : option A :=
  match kv with
  | [] => None
  | (k', v) :: rest => if String.eqb k k' then Some v else assoc k rest
  end.

(** [d.get(k, default)]; only a dict has [get]. *)
Definition dict_get (d : value) (k : string) (default : value) : res value :=
  match d with
  | VDict kv => Ok (match assoc k kv with Some v => v | None => default end)
  | _ => Raise AttributeError
  end.

(** [d[k]] *)
Definition dict_item (d : value) (k : string) : res value :=
  match d with
  | VDict kv => match assoc k kv with Some v => Ok v | None => Raise KeyError end
  | _ => Raise TypeError
  end.

Fixpoint chars (s : string) : list value :=
  match s with
  | EmptyString => []
  | String c rest => VStr (String c EmptyString) :: chars rest
  end.

(** [iter(v)]: the elements a [for] loop or a generator walks through. *)
Definition py_iter (v : value) : res (list value) :=
  match v with
  | VList l => Ok l
  | VStr s => Ok (chars s)
  | VDict kv => Ok (map (fun p => VStr (fst p)) kv)
  | VNone | VBool _ | VInt _ => Raise TypeError
  end.

Definition bool_int (b : bool) : Z := if b then 1%Z else 0%Z.

(** [a == b].  [bool] is a subclass of [int]; lists compare element by
    element; dicts compare as mappings, whatever the order of the items. *)
Fixpoint py_eq (a b : value) {struct a} : bool :=
  match a, b with
  | VNone, VNone => true
  | VBool x, VBool y => Bool.eqb x y
  | VBool x, VInt n => Z.eqb (bool_int x) n
  | VInt n, VBool y => Z.eqb n (bool_int y)
  | VInt m, VInt n => Z.eqb m n
  | VStr s, VStr t => String.eqb s t
  | VList l, VList l' =>
      (fix all2 (l l' : list value) : bool :=
         match l, l' with
         | [], [] => true
         | x :: xs, y :: ys => py_eq x y && all2 xs ys
         | _, _ => false
         end) l l'
  | VDict kv, VDict kv' =>
      Nat.eqb (List.length kv) (List.length kv') &&
      (fix sub (kv : list (string * value)) : bool :=
         match kv with
         | [] => true
         | (k, v) :: rest =>
             match assoc k kv' with
             | Some v' => py_eq v v'
             | None => false
             end && sub rest
         end) kv
  | _, _ => false
  end.

(** The values without parts: [None], booleans, integers and strings. *)
Definition is_scalar (v : value) : bool :=
  match v with
  | VList _ | VDict _ => false
  | _ => true
  end.

(** The byte [ED] followed by a byte from [A0] on: a surrogate. *)
Fixpoint has_lone_surrogate (s : string) : bool :=
  match s with
  | EmptyString => false
  | String c rest =>
      match rest with
      | String c' _ =>
          (Nat.eqb (nat_of_ascii c) 237 && Nat.leb 160 (nat_of_ascii c'))
          || has_lone_surrogate rest
      | EmptyString => false
      end
  end.

(** [print(v)] on a standard output that encodes with UTF-8 and refuses
    what it cannot encode: the text of a [str] is written as it is and a
    surrogate in it raises [UnicodeEncodeError]; the text of any other
    value is its [repr], in which the strings are escaped.  An f-string
    that puts [v] after a constant text prints as [v] does. *)
Definition print (v : value) : res unit :=
  match v with
  | VStr s => if has_lone_surrogate s then Raise UnicodeEncodeError else Ok tt
  | _ => Ok tt
  end.

(** ** State and exceptions *)

Definition M (S A : Type) : Type := S -> res A * S.

Definition ret {S A : Type} (a : A) : M S A := fun s => (Ok a, s).

Definition bind {S A B : Type} (m : M S A) (k : A -> M S B) : M S B :=
  fun s =>
    match m s with
    | (Ok a, s') => k a s'
    | (Raise e, s') => (Raise e, s')
    end.

Definition lift {S A : Type} (r : res A) : M S A := fun s => (r, s).

Definition raise {S A : Type} (e : exn) : M S A := fun s => (Raise e, s).

Definition gets {S A : Type} (f : S -> A) : M S A := fun s => (Ok (f s), s).

Definition modify {S : Type} (f : S -> S) : M S unit := fun s => (Ok tt, f s).

(** [try: body  except Exception: handler] *)
Definition try_except {S A : Type} (body : M S A) (handler : exn -> M S A) : M S A :=
  fun s =>
    match body s with
    | (Ok a, s') => (Ok a, s')
    | (Raise e, s') => handler e s'
    end.

(** [for x in xs: body x] *)
Fixpoint for_each {S A : Type} (xs : list A) (body : A -> M S unit) : M S unit :=
  match xs with
  | [] => ret tt
  | x :: rest => bind (body x) (fun _ => for_each rest body)
  end.

(** [keeps proj m]: running [m] leaves the component [proj] of the state as
    it was, whether [m] returns or raises. *)
Definition keeps {S V A : Type} (proj : S -> V) (m : M S A) : Prop :=
  forall s, proj (snd (m s)) = proj s.

(** [steps proj Q m]: running [m] takes the component [proj] of the state
    from a value to one related to it by [Q]. *)
Definition steps {S V A : Type} (proj : S -> V) (Q : V -> V -> Prop) (m : M S A) : Prop :=
  forall s, Q (proj s) (proj (snd (m s))).

Declare Scope py_scope.
Delimit Scope py_scope with py.
Notation "x <- m ;; k" := (bind m (fun x => k))
  (at level 61, m at next level, right associativity) : py_scope.
Notation "m ;; k" := (bind m (fun _ => k))
  (at level 61, right associativity) : py_scope.
Local Open Scope py_scope.

(** ** email_webhook.py: the webhook gateway *)

Module Gateway.

(** The part of [fastapi.Request] the handler reads.  [query_params] is the
    parsed query string (blank values kept); [json] is what
    [await request.json()] makes of the body. *)
Record Request : Type := {
  method : string;
  query_params : list (string * string);
  json : decoded
}.

(** [request.query_params.get(key)]: starlette's multi-dict answers with
    the last value given for the key. *)
Fixpoint query_get (key : string) (q : list (string * string)) : option string :=
  match q with
  | [] => None
  | (k, v) :: rest =>
      match query_get key rest with
      | Some v' => Some v'
      | None => if String.eqb key k then Some v else None
      end
  end.

(** [bool(s)] for [s] a string or [None]. *)
Definition str_truthy (s : option string) : bool :=
  match s with
  | None => false
  | Some s => negb (String.eqb s "")
  end.

Inductive Response : Type :=
| PlainTextResponse (content : option string) (status_code : Z)
| JSONResponse (content : value) (status_code : Z).

Definition status (r : Response) : Z :=
  match r with
  | PlainTextResponse _ c => c
  | JSONResponse _ c => c
  end.

Definition media_type (r : Response) : string :=
  match r with
  | PlainTextResponse _ _ => "text/plain"
  | JSONResponse _ _ => "application/json"
  end.

(** The body of a plain-text response; [content=None] renders as no bytes. *)
Definition body (r : Response) : option string :=
  match r with
  | PlainTextResponse (Some s) _ => Some s
  | PlainTextResponse None _ => Some ""
  | JSONResponse _ _ => None
  end.

(** [BackgroundTasks]: the resources for which [trigger_email_processing]
    has been scheduled, oldest first. *)
Definition BackgroundTasks : Type := list value.

Definition add_task (resource : value) : M BackgroundTasks unit :=
  modify (fun tasks => tasks ++ [resource]).

Definition request_json (request : Request) : M BackgroundTasks value :=
  match json request with
  | JSON v => ret v
  | NotJSON => raise JSONDecodeError
  | Fails e => raise e
  end.

(** Line 65 prints the validation token, which comes out of the query
    string with no surrogate in it (what does not decode there is
    replaced), and line 81 the text of the exception: neither raises. *)
Definition handle_graph_webhook (request : Request) : M BackgroundTasks Response :=
  let validation_token := query_get "validationToken" (query_params request) in
  if str_truthy validation_token then
    ret (PlainTextResponse validation_token 200)
  else if String.eqb (method request) "POST" then
    try_except
      (body <- request_json request ;;
       lift (print (VStr "New email notification received:")) ;;
       lift (print body) ;;
       notifications <- lift (dict_get body "value" (VList [])) ;;
       items <- lift (py_iter notifications) ;;
       for_each items (fun notification =>
         resource <- lift (dict_get notification "resource" (VStr "")) ;;
         lift (print resource) ;;
         add_task resource) ;;
       ret (JSONResponse (VDict [("status", VStr "Notification received")]) 202))
      (fun e =>
         ret (JSONResponse (VDict [("error", VStr "Invalid JSON")]) 400))
  else
    ret (PlainTextResponse None 405).

End Gateway.

(** ** email_webhook.py: the ingestion pipeline *)

Definition rbind {A B : Type} (r : res A) (k : A -> res B) : res B :=
  match r with
  | Ok a => k a
  | Raise e => Raise e
  end.

Notation "x <~ r ;; k" := (rbind r (fun x => k))
  (at level 61, r at next level, right associativity) : py_scope.

(** [[f(x) for x in xs]] *)
Fixpoint map_res {A B : Type} (f : A -> res B) (xs : list A) : res (list B) :=
  match xs with
  | [] => Ok []
  | x :: rest => y <~ f x ;; ys <~ map_res f rest ;; Ok (y :: ys)
  end.

(** [str.isspace] on the characters of one byte: tab, line feed, vertical
    tab, form feed, carriage return, the four separators 28..31 and the
    space. *)
Definition is_space (c : ascii) : bool :=
  let n := nat_of_ascii c in
  (Nat.leb 9 n && Nat.leb n 13) || (Nat.leb 28 n && Nat.leb n 32).

(** [str.isspace] on the characters of two bytes: U+0085 and U+00A0. *)
Definition is_space2 (c1 c2 : ascii) : bool :=
  Nat.eqb (nat_of_ascii c1) 194 &&
  (Nat.eqb (nat_of_ascii c2) 133 || Nat.eqb (nat_of_ascii c2) 160).

(** [str.isspace] on the characters of three bytes: U+1680, U+2000 to
    U+200A, U+2028, U+2029, U+202F, U+205F and U+3000. *)
Definition is_space3 (c1 c2 c3 : ascii) : bool :=
  let n1 := nat_of_ascii c1 in
  let n2 := nat_of_ascii c2 in
  let n3 := nat_of_ascii c3 in
  (Nat.eqb n1 225 && Nat.eqb n2 154 && Nat.eqb n3 128)
  || (Nat.eqb n1 226 && Nat.eqb n2 128 &&
      ((Nat.leb 128 n3 && Nat.leb n3 138)
       || Nat.eqb n3 168 || Nat.eqb n3 169 || Nat.eqb n3 175))
  || (Nat.eqb n1 226 && Nat.eqb n2 129 && Nat.eqb n3 159)
  || (Nat.eqb n1 227 && Nat.eqb n2 128 && Nat.eqb n3 128).

(** [s.lstrip()]: the whitespace characters at the start are dropped. *)
Fixpoint lstrip (s : string) : string :=
  match s with
  | EmptyString => EmptyString
  | String c1 r1 =>
      if is_space c1 then lstrip r1
      else
        match r1 with
        | String c2 r2 =>
            if is_space2 c1 c2 then lstrip r2
            else
              match r2 with
              | String c3 r3 => if is_space3 c1 c2 c3 then lstrip r3 else s
              | EmptyString => s
              end
        | EmptyString => s
        end
  end.

(** [s.rstrip()]: the whitespace characters at the end are dropped; a
    byte is dropped with the one or two bytes kept after it when they
    make up a whitespace character. *)
Fixpoint rstrip (s : string) : string :=
  match s with
  | EmptyString => EmptyString
  | String c rest =>
      match rstrip rest with
      | EmptyString => if is_space c then EmptyString else String c EmptyString
      | String c2 EmptyString =>
          if is_space2 c c2 then EmptyString else String c (String c2 EmptyString)
      | String c2 (String c3 EmptyString) =>
          if is_space3 c c2 c3 then EmptyString
          else String c (String c2 (String c3 EmptyString))
      | rest' => String c rest'
      end
  end.

(** [s.strip()] *)
Definition strip (s : string) : string := rstrip (lstrip s).

(** Every character of [s] is whitespace. *)
Fixpoint all_space (s : string) : bool :=
  match s with
  | EmptyString => true
  | String c1 r1 =>
      if is_space c1 then all_space r1
      else
        match r1 with
        | String c2 r2 =>
            if is_space2 c1 c2 then all_space r2
            else
              match r2 with
              | String c3 r3 => is_space3 c1 c2 c3 && all_space r3
              | EmptyString => false
              end
        | EmptyString => false
        end
  end.

(** [s] begins with a whitespace character. *)
Definition starts_space (s : string) : bool :=
  match s with
  | EmptyString => false
  | String c1 r1 =>
      is_space c1 ||
      match r1 with
      | String c2 r2 =>
          is_space2 c1 c2 ||
          match r2 with
          | String c3 _ => is_space3 c1 c2 c3
          | EmptyString => false
          end
      | EmptyString => false
      end
  end.

Fixpoint remove_key {A : Type} (k : string) (kv : list (string * A)) : list (string * A) :=
  match kv with
  | [] => []
  | (k', v) :: rest =>
      if String.eqb k k' then remove_key k rest else (k', v) :: remove_key k rest
  end.

(** [d[k] = v] on an item list: an existing key keeps its place. *)
Fixpoint set_key {A : Type} (k : string) (v : A) (kv : list (string * A)) : list (string * A) :=
  match kv with
  | [] => [(k, v)]
  | (k', v') :: rest =>
      if String.eqb k k' then (k', v) :: rest else (k', v') :: set_key k v rest
  end.

(** [d.update(other)] *)
Definition dict_update (d : value) (other : list (string * value)) : res value :=
  match d with
  | VDict kv => Ok (VDict (fold_left (fun acc p => set_key (fst p) (snd p) acc) other kv))
  | _ => Raise AttributeError
  end.

(** [l.append(x)]; only a list has [append]. *)
Definition list_append (l : value) (x : value) : res value :=
  match l with
  | VList xs => Ok (VList (xs ++ [x]))
  | _ => Raise AttributeError
  end.

Module Ingestion.

(** The files under [vector_stores/email_data].  A temporary text file is
    a path with its text; the index file is the sequence of entries
    appended so far; the metadata file is kept as what [json.load] makes
    of it. *)
Record Storage : Type := {
  base_dir : bool;
  temp_files : list (string * string);
  index_file : option (list value);
  metadata_file : option decoded;
  lock_file : bool
}.

Definition empty_storage : Storage :=
  {| base_dir := false; temp_files := []; index_file := None;
     metadata_file := None; lock_file := false |}.

Definition set_base_dir (b : bool) (st : Storage) : Storage :=
  {| base_dir := b; temp_files := temp_files st; index_file := index_file st;
     metadata_file := metadata_file st; lock_file := lock_file st |}.

Definition set_temp_files (t : list (string * string)) (st : Storage) : Storage :=
  {| base_dir := base_dir st; temp_files := t; index_file := index_file st;
     metadata_file := metadata_file st; lock_file := lock_file st |}.

Definition set_index_file (i : option (list value)) (st : Storage) : Storage :=
  {| base_dir := base_dir st; temp_files := temp_files st; index_file := i;
     metadata_file := metadata_file st; lock_file := lock_file st |}.

Definition set_metadata_file (m : option decoded) (st : Storage) : Storage :=
  {| base_dir := base_dir st; temp_files := temp_files st; index_file := index_file st;
     metadata_file := m; lock_file := lock_file st |}.

Definition set_lock_file (b : bool) (st : Storage) : Storage :=
  {| base_dir := base_dir st; temp_files := temp_files st; index_file := index_file st;
     metadata_file := metadata_file st; lock_file := b |}.

(** The two readings of [datetime.utcnow()] in one ingestion: the one
    formatted with [strftime('%Y%m%d_%H%M%S')] and the later one formatted
    with [isoformat()]. *)
Record Clock : Type := {
  utcnow_strftime : string;
  utcnow_isoformat : string
}.

(** The locals of [process_and_store_email] computed before the guard on
    the body. *)
Record Fields : Type := {
  uid : value;
  subject : value;
  sender : value;
  sender_name : value;
  sent_time : value;
  cc_list : list value;
  has_attachments : value;
  plain_body : string
}.

Definition base_path : string := "vector_stores/email_data".

(** [os.path.join(base_path, name)] for a relative [name]. *)
Definition path_join (dir name : string) : string := (dir ++ "/" ++ name)%string.

Definition index_path : string := path_join base_path "index_email.faiss".
Definition metadata_path : string := path_join base_path "metadata.json".
Definition metadata_lock_path : string := path_join base_path "metadata.json.lock".

Section Pipeline.

(** [str(v)], as an f-string formats a value. *)
Variable py_str : value -> string.

(** [BeautifulSoup(markup, "html.parser").get_text()] *)
Variable get_text : value -> res string.

(** The splitting done by [DocumentChunker] on a text. *)
Variable chunk_text : string -> res (list value).

(** The embedding of chunks into index entries. *)
Variable embed : list value -> res (list value).

(** The file system: the exception, if any, with which it refuses to make
    the directory at a path or to create the temporary file at a path (a
    name with a ["/"] in it, too long a name, a directory that cannot be
    written to).  The index, the metadata file and its lock, whose names
    are fixed, are taken to be writable. *)
Variable refused : string -> option exn.

Definition temp_file_path (uid : value) (timestamp : string) : string :=
  path_join base_path ("email_" ++ py_str uid ++ "_" ++ timestamp ++ ".txt")%string.

(** Lines 94 to 103: the fields read off [email_data]. *)
Definition message_fields (email_data : value) : res Fields :=
  uid <~ dict_get email_data "id" VNone ;;
  subject <~ dict_get email_data "subject" (VStr "No Subject") ;;
  from1 <~ dict_get email_data "from" (VDict []) ;;
  address1 <~ dict_get from1 "emailAddress" (VDict []) ;;
  sender <~ dict_get address1 "address" (VStr "unknown") ;;
  from2 <~ dict_get email_data "from" (VDict []) ;;
  address2 <~ dict_get from2 "emailAddress" (VDict []) ;;
  sender_name <~ dict_get address2 "name" (VStr "Unknown") ;;
  sent_time <~ dict_get email_data "sentDateTime" (VStr "unknown") ;;
  recipients <~ dict_get email_data "ccRecipients" (VList []) ;;
  rs <~ py_iter recipients ;;
  cc_list <~ map_res (fun r =>
               address <~ dict_get r "emailAddress" (VDict []) ;;
               dict_get address "address" (VStr "")) rs ;;
  has_attachments <~ dict_get email_data "hasAttachments" (VBool false) ;;
  body <~ dict_get email_data "body" (VDict []) ;;
  html_body <~ dict_get body "content" (VStr "") ;;
  plain_body <~ get_text html_body ;;
  Ok {| uid := uid; subject := subject; sender := sender;
        sender_name := sender_name; sent_time := sent_time;
        cc_list := cc_list; has_attachments := has_attachments;
        plain_body := plain_body |}.

(** [os.makedirs(base_path, exist_ok=True)] *)
Definition makedirs : M Storage unit :=
  match refused base_path with
  | Some e => raise e
  | None => modify (set_base_dir true)
  end.

(** [with open(path, "w", encoding="utf-8") as f: f.write(text)]: the
    file is there, empty, once it is open; a text with a surrogate is not
    encoded and nothing of it is written. *)
Definition write_text (path text : string) : M Storage unit :=
  match refused path with
  | Some e => raise e
  | None =>
      if has_lone_surrogate text then
        modify (fun st => set_temp_files (set_key path "" (temp_files st)) st) ;;
        raise UnicodeEncodeError
      else
        modify (fun st => set_temp_files (set_key path text (temp_files st)) st)
  end.

(** [os.remove(path)] *)
Definition remove (path : string) : M Storage unit :=
  fun st =>
    match assoc path (temp_files st) with
    | Some _ => (Ok tt, set_temp_files (remove_key path (temp_files st)) st)
    | None => (Raise (OtherError "FileNotFoundError"), st)
    end.

(** Modelled from the spec: [DocumentChunker(file_path, ...).chunk()] of
    [functions/document_chunking.py], which is not part of the sources at
    hand.  Section 4.5 step 3: the chunker splits the contents of the
    temporary file into chunks; how it splits is left open. *)
Definition chunker_chunk (file_path : string) : M Storage (list value) :=
  fun st =>
    match assoc file_path (temp_files st) with
    | Some text => (chunk_text text, st)
    | None => (Raise (OtherError "FileNotFoundError"), st)
    end.

(** Modelled from the spec: [VectorStore.build_or_append_index] of
    [functions/vectorstore.py], which is not part of the sources at hand.
    Section 4.5 step 4: all chunks are embedded and appended to the shared
    index file, which is created if absent and extended otherwise. *)
Definition build_or_append_index (chunks : list value) : M Storage unit :=
  entries <- lift (embed chunks) ;;
  modify (fun st =>
    set_index_file
      (Some (match index_file st with Some old => old | None => [] end ++ entries)) st).

(** Lines 131 to 140, for one chunk. *)
Definition enrich (f : Fields) (timestamp : string) (chunk : value) : res value :=
  metadata <~ dict_item chunk "metadata" ;;
  metadata' <~ dict_update metadata
    [("email_id", uid f); ("subject", subject f); ("sender", sender f);
     ("sender_name", sender_name f); ("timestamp", VStr timestamp);
     ("cc", VList (cc_list f)); ("hasAttachments", has_attachments f)] ;;
  match chunk with
  | VDict kv => Ok (VDict (set_key "metadata" metadata' kv))
  | _ => Raise TypeError
  end.

Definition metadata_entry (f : Fields) (timestamp : string) (chunk_count : nat)
    (upload_date : string) : value :=
  VDict [("email_id", uid f); ("subject", subject f); ("sender", sender f);
         ("sender_name", sender_name f); ("timestamp", VStr timestamp);
         ("cc", VList (cc_list f)); ("hasAttachments", has_attachments f);
         ("chunk_count", VInt (Z.of_nat chunk_count));
         ("index_path", VStr index_path); ("uploadDate", VStr upload_date)].

(** Lines 161 to 167: the records read from the metadata file. *)
Definition load_metadata : M Storage value :=
  fun st =>
    match metadata_file st with
    | None => (Ok (VList []), st)
    | Some (JSON v) => (Ok v, st)
    | Some NotJSON => (Ok (VList []), st)
    | Some (Fails e) => (Raise e, st)
    end.

(** [any(m.get("email_id") == uid for m in ms)]; [any] stops at the first
    match. *)
Fixpoint any_email_id (uid : value) (ms : list value) : res bool :=
  match ms with
  | [] => Ok false
  | m :: rest =>
      v <~ dict_get m "email_id" VNone ;;
      if py_eq v uid then Ok true else any_email_id uid rest
  end.

(** [json.dump(v, f)] into the freshly opened metadata file. *)
Definition dump_metadata (v : value) : M Storage unit :=
  modify (set_metadata_file (Some (JSON v))).

(** Lines 159 to 174.  Acquiring the lock creates the lock file; releasing
    it, on every way out of the block, changes no file. *)
Definition append_metadata (uid : value) (entry : value) : M Storage unit :=
  modify (set_lock_file true) ;;
  metadata_list <- load_metadata ;;
  ms <- lift (py_iter metadata_list) ;;
  found <- lift (any_email_id uid ms) ;;
  if negb found then
    metadata_list' <- lift (list_append metadata_list entry) ;;
    dump_metadata metadata_list'
  else
    ret tt.

(** Line 106 and line 109: what is printed about the message. *)
Definition skipping_text (f : Fields) : value :=
  VStr ("[PROCESS EMAIL]  Email " ++ py_str (uid f) ++ " has no body content. Skipping.")%string.

Definition storing_text (f : Fields) : value :=
  VStr ("[PROCESS EMAIL]  Storing " ++ py_str (uid f) ++ " from " ++ py_str (sender f)
        ++ " | Subject: " ++ py_str (subject f))%string.

(** Lines 174 and 177 print the id between constant texts; line 109 has
    printed it before them. *)
Definition process_and_store_email (email_data : value) (clock : Clock) : M Storage unit :=
  f <- lift (message_fields email_data) ;;
  if negb (truthy (VStr (strip (plain_body f)))) then
    lift (print (skipping_text f)) ;;
    ret tt
  else
    lift (print (storing_text f)) ;;
    makedirs ;;
    let timestamp := utcnow_strftime clock in
    let temp_file_path := temp_file_path (uid f) timestamp in
    write_text temp_file_path (plain_body f) ;;
    chunks <- chunker_chunk temp_file_path ;;
    chunks <- lift (map_res (enrich f timestamp) chunks) ;;
    build_or_append_index chunks ;;
    let entry := metadata_entry f timestamp (List.length chunks) (utcnow_isoformat clock) in
    append_metadata (uid f) entry ;;
    remove temp_file_path.

(** The ingestion of a message with fields [f] gets as far as the
    chunker: line 109 prints, the directory is made or is there, and the
    temporary file is created and the text written to it. *)
Definition text_stored (f : Fields) (clock : Clock) : Prop :=
  print (storing_text f) = Ok tt /\
  refused base_path = None /\
  refused (temp_file_path (uid f) (utcnow_strftime clock)) = None /\
  has_lone_surrogate (plain_body f) = false.

(** Ingestions run one after the other, each with its own clock readings;
    an ingestion that raises ends its background task and the next one
    starts from the files it left. *)
Fixpoint ingest_all (batch : list (value * Clock)) (st : Storage) : Storage :=
  match batch with
  | [] => st
  | (email_data, clock) :: rest =>
      ingest_all rest (snd (process_and_store_email email_data clock st))
  end.

(** The records of the metadata file, as the de-duplication sees them. *)
Definition records (file : option decoded) : list value :=
  match file with
  | Some (JSON (VList l)) => l
  | _ => []
  end.

(** [m.get("email_id") == uid], false for what has no [get]. *)
Definition has_email_id (uid : value) (m : value) : bool :=
  match dict_get m "email_id" VNone with
  | Ok v => py_eq v uid
  | Raise _ => false
  end.

Definition count_records (uid : value) (file : option decoded) : nat :=
  List.length (filter (has_email_id uid) (records file)).

(** What one ingestion of a message with id [uid] may do to the metadata
    file: nothing, or rewrite it as the records it held followed by one
    record for [uid], and this only when none of them has that id. *)
Definition one_append (uid : value) (old new : option decoded) : Prop :=
  new = old \/
  exists entry,
    dict_get entry "email_id" VNone = Ok uid /\
    any_email_id uid (records old) = Ok false /\
    new = Some (JSON (VList (records old ++ [entry]))).

End Pipeline.

End Ingestion.

(** ** email_webhook.py: fetching a message and running the pipeline on it *)

Module Fetch.

(** The calls that leave the process on this side: the MSAL client and the
    GET of the message named by a notification (with the fixed [$select]
    parameter and the bearer token). *)
Inductive Call : Type :=
| ClientApplication
| AcquireTokenSilent
| AcquireTokenForClient
| GetMessage (resource : value) (token : value).

(** The part of [httpx.Response] the code uses: what [raise_for_status()]
    does and what [json()] returns or raises. *)
Record Response : Type := {
  raise_for_status : res unit;
  json : res value
}.

(** The calls made so far, oldest first, and the files. *)
Record World : Type := {
  calls : list Call;
  storage : Ingestion.Storage
}.

Definition record_call (c : Call) (w : World) : World :=
  {| calls := calls w ++ [c]; storage := storage w |}.

(** An action on the files, run in the world. *)
Definition on_storage {A : Type} (m : M Ingestion.Storage A) : M World A :=
  fun w =>
    match m (storage w) with
    | (r, st) => (r, {| calls := calls w; storage := st |})
    end.

Section Graph.

Variable msal : list Call -> Call -> res value.
Variable client_get : list Call -> Call -> res Response.

Variable py_str : value -> string.
Variable get_text : value -> res string.
Variable chunk_text : string -> res (list value).
Variable embed : list value -> res (list value).
Variable refused : string -> option exn.

Definition call_msal (c : Call) : M World value :=
  fun w => (msal (calls w) c, record_call c w).

Definition request (c : Call) : M World Response :=
  fun w => (client_get (calls w) c, record_call c w).

Definition get_graph_api_token : M World value :=
  call_msal ClientApplication ;;
  result <- call_msal AcquireTokenSilent ;;
  result <- (if negb (truthy result) then call_msal AcquireTokenForClient
             else ret result) ;;
  lift (dict_get result "access_token" VNone).

Definition fetch_email_from_graph_api (resource : value) : M World value :=
  token <- get_graph_api_token ;;
  if negb (truthy token) then
    ret VNone
  else
    try_except
      (response <- request (GetMessage resource token) ;;
       lift (raise_for_status response) ;;
       lift (json response))
      (fun e => ret VNone).

Definition trigger_email_processing (resource : value) (clock : Ingestion.Clock)
    : M World unit :=
  email_data <- fetch_email_from_graph_api resource ;;
  if truthy email_data then
    on_storage
      (Ingestion.process_and_store_email py_str get_text chunk_text embed refused
         email_data clock)
  else
    ret tt.

End Graph.

Definition is_get_message (c : Call) : bool :=
  match c with
  | GetMessage _ _ => true
  | _ => false
  end.

End Fetch.

(** ** subscription.py: the subscription manager and the renewal scheduler *)

Module Subscription.

(** Every call that leaves the process: the MSAL client (its constructor
    resolves the authority, then the two token acquisitions) and the four
    requests to [GRAPH_API_URL/subscriptions].  A call carries what the
    code passes to it; the URL of a subscription is given by its id. *)
Inductive Call : Type :=
| ClientApplication
| AcquireTokenSilent
| AcquireTokenForClient
| GetSubscriptions (token : value)
| DeleteSubscription (sub_id : value) (token : value)
| PostSubscription (token : value) (body : value)
| PatchSubscription (sub_id : value) (token : value) (body : value).

(** The part of [requests.Response] the code reads; [json] is what
    [response.json()] returns or raises. *)
Record HttpResponse : Type := {
  status_code : Z;
  json : res value;
  text : string
}.

(** The module globals, the jobs of the [BackgroundScheduler] (job id and
    interval in seconds), and the calls made so far, oldest first. *)
Record World : Type := {
  current_subscription_id : value;
  use_fast_scheduler : bool;
  jobs : list (string * Z);
  calls : list Call
}.

Definition initial_world : World :=
  {| current_subscription_id := VNone; use_fast_scheduler := true;
     jobs := []; calls := [] |}.

Definition set_current_subscription_id (v : value) (w : World) : World :=
  {| current_subscription_id := v; use_fast_scheduler := use_fast_scheduler w;
     jobs := jobs w; calls := calls w |}.

Definition set_use_fast_scheduler (b : bool) (w : World) : World :=
  {| current_subscription_id := current_subscription_id w; use_fast_scheduler := b;
     jobs := jobs w; calls := calls w |}.

Definition set_jobs (j : list (string * Z)) (w : World) : World :=
  {| current_subscription_id := current_subscription_id w;
     use_fast_scheduler := use_fast_scheduler w; jobs := j; calls := calls w |}.

Definition record_call (c : Call) (w : World) : World :=
  {| current_subscription_id := current_subscription_id w;
     use_fast_scheduler := use_fast_scheduler w; jobs := jobs w;
     calls := calls w ++ [c] |}.

(** [timedelta(hours=40)] and the two intervals, in seconds. *)
Definition hours (n : Z) : Z := (n * 3600)%Z.
Definition seconds (n : Z) : Z := n.

Section Provider.

(** The identity provider and the mail provider: what a call returns or
    raises, given the calls made before it. *)
Variable msal : list Call -> Call -> res value.
Variable http : list Call -> Call -> res HttpResponse.

(** [datetime.utcnow()], in seconds, as read after the given calls, and
    [datetime.isoformat()]. *)
Variable utcnow : list Call -> Z.
Variable isoformat : Z -> string.

(** [WEBHOOK_CALLBACK_URL] ([None] when unset) and the target resource. *)
Variable CALLBACK_URL : value.
Variable RESOURCE : string.

Definition call_msal (c : Call) : M World value :=
  fun w => (msal (calls w) c, record_call c w).

Definition request (c : Call) : M World HttpResponse :=
  fun w => (http (calls w) c, record_call c w).

Definition get_access_token : M World value :=
  call_msal ClientApplication ;;
  result <- call_msal AcquireTokenSilent ;;
  result <- (if negb (truthy result) then call_msal AcquireTokenForClient
             else ret result) ;;
  lift (dict_get result "access_token" VNone).

(** The loop of [get_existing_subscription] over the listed subscriptions:
    the first one whose resource is the target is cached and ends the
    search. *)
Fixpoint find_existing (subs : list value) : M World bool :=
  match subs with
  | [] => ret false
  | sub :: rest =>
      resource <- lift (dict_get sub "resource" VNone) ;;
      if py_eq resource (VStr RESOURCE) then
        sub_id <- lift (dict_get sub "id" VNone) ;;
        modify (set_current_subscription_id sub_id) ;;
        ret true
      else
        find_existing rest
  end.

(** A listed subscription that is for another resource than the target. *)
Definition other_resource (sub : value) : Prop :=
  exists r, dict_get sub "resource" VNone = Ok r /\ py_eq r (VStr RESOURCE) = false.

Definition get_existing_subscription (token : value) : M World bool :=
  response <- request (GetSubscriptions token) ;;
  if Z.eqb (status_code response) 200 then
    body <- lift (json response) ;;
    subscriptions <- lift (dict_get body "value" (VList [])) ;;
    subs <- lift (py_iter subscriptions) ;;
    find_existing subs
  else
    ret false.

Definition delete_all_subscriptions (token : value) : M World unit :=
  response <- request (GetSubscriptions token) ;;
  if negb (Z.eqb (status_code response) 200) then
    ret tt
  else
    body <- lift (json response) ;;
    subs <- lift (dict_get body "value" (VList [])) ;;
    subs <- lift (py_iter subs) ;;
    for_each subs (fun sub =>
      sub_id <- lift (dict_get sub "id" VNone) ;;
      del_resp <- request (DeleteSubscription sub_id token) ;;
      ret tt).

(** [(datetime.utcnow() + timedelta(hours=40)).isoformat() + "Z"] *)
Definition expiration_from (now : Z) : string :=
  (isoformat (now + hours 40) ++ "Z")%string.

Definition subscription_body (expiration : string) : value :=
  VDict [("changeType", VStr "created");
         ("notificationUrl", CALLBACK_URL);
         ("resource", VStr RESOURCE);
         ("expirationDateTime", VStr expiration);
         ("clientState", VStr "aSecretValueToVerifyTheOrigin")].

Definition create_subscription (token : value) : M World bool :=
  now <- gets (fun w => utcnow (calls w)) ;;
  let expiration := expiration_from now in
  let body := subscription_body expiration in
  response <- request (PostSubscription token body) ;;
  if Z.eqb (status_code response) 201 then
    created <- lift (json response) ;;
    sub_id <- lift (dict_get created "id" VNone) ;;
    modify (set_current_subscription_id sub_id) ;;
    ret true
  else
    ret false.

Definition renew_subscription : M World bool :=
  sub_id <- gets current_subscription_id ;;
  if negb (truthy sub_id) then
    ret false
  else
    token <- get_access_token ;;
    if negb (truthy token) then
      ret false
    else
      now <- gets (fun w => utcnow (calls w)) ;;
      let expiration := expiration_from now in
      let patch_body := VDict [("expirationDateTime", VStr expiration)] in
      sub_id <- gets current_subscription_id ;;
      response <- request (PatchSubscription sub_id token patch_body) ;;
      if Z.eqb (status_code response) 200 then ret true else ret false.

(** [scheduler.remove_job(id)] and [scheduler.add_job(..., id=id)] on a
    running scheduler. *)
Definition remove_job (id : string) : M World unit :=
  fun w =>
    match assoc id (jobs w) with
    | Some _ => (Ok tt, set_jobs (remove_key id (jobs w)) w)
    | None => (Raise (OtherError "JobLookupError"), w)
    end.

Definition add_job (id : string) (interval : Z) : M World unit :=
  fun w =>
    match assoc id (jobs w) with
    | Some _ => (Raise (OtherError "ConflictingIdError"), w)
    | None => (Ok tt, set_jobs (jobs w ++ [(id, interval)]) w)
    end.

Definition run_scheduled_check : M World unit :=
  sub_id <- gets current_subscription_id ;;
  if truthy sub_id then
    success <- renew_subscription ;;
    fast <- gets use_fast_scheduler ;;
    if success && fast then
      modify (set_use_fast_scheduler false) ;;
      remove_job "scheduled_check" ;;
      add_job "scheduled_check" (hours 40)
    else
      ret tt
  else
    token <- get_access_token ;;
    if negb (truthy token) then
      ret tt
    else
      delete_all_subscriptions token ;;
      created <- create_subscription token ;;
      if created then
        renew_subscription ;;
        ret tt
      else
        ret tt.

(** [start_scheduler]: a new scheduler with the one job, every 15 seconds. *)
Definition start_scheduler (w : World) : World :=
  set_jobs [("scheduled_check", seconds 15)] w.

(** One firing of the job: [asyncio.run(run_scheduled_check())]; an
    exception ends the run and the scheduler goes on with the next one. *)
Definition tick (w : World) : World := snd (run_scheduled_check w).

Fixpoint ticks (n : nat) (w : World) : World :=
  match n with
  | O => w
  | S n' => ticks n' (tick w)
  end.

(** The interval at which the job fires. *)
Definition cadence (w : World) : option Z := assoc "scheduled_check" (jobs w).

End Provider.

(** What a call to a provider leaves alone: the cached id, the flag and
    the jobs; and the last two, which make up the schedule. *)
Definition globals (w : World) : value * bool * list (string * Z) :=
  (current_subscription_id w, use_fast_scheduler w, jobs w).

Definition schedule (w : World) : bool * list (string * Z) :=
  (use_fast_scheduler w, jobs w).

(** The calls a renewal makes: the MSAL client and the PATCH. *)
Definition is_renew_call (c : Call) : bool :=
  match c with
  | ClientApplication | AcquireTokenSilent | AcquireTokenForClient
  | PatchSubscription _ _ _ => true
  | _ => false
  end.

Definition is_delete (c : Call) : bool :=
  match c with
  | DeleteSubscription _ _ => true
  | _ => false
  end.

End Subscription.

(** ** Sample collaborators and inputs

    Concrete stand-ins for the collaborators the pipeline and the
    subscription manager are parameterised by, used to run the model. *)

Module Sample.

(** [str] on the values that occur as message ids. *)
Definition str (v : value) : string :=
  match v with
  | VNone => "None"
  | VBool true => "True"
  | VBool false => "False"
  | VInt n => NilZero.string_of_int (Z.to_int n)
  | VStr s => s
  | VList _ => "[...]"
  | VDict _ => "{...}"
  end.

(** Text outside of tags: what is between ["<"] and [">"] is dropped. *)
Fixpoint outside_tags (in_tag : bool) (s : string) : string :=
  match s with
  | EmptyString => EmptyString
  | String c rest =>
      if in_tag then outside_tags (negb (Ascii.eqb c ">")) rest
      else if Ascii.eqb c "<" then outside_tags true rest
      else String c (outside_tags false rest)
  end.

Definition get_text (markup : value) : res string :=
  match markup with
  | VStr s => Ok (outside_tags false s)
  | _ => Raise TypeError
  end.

(** A file system with the storage directory and no directory under it:
    a file whose name has a ["/"] in it cannot be created. *)
Fixpoint has_slash (s : string) : bool :=
  match s with
  | EmptyString => false
  | String c rest => Ascii.eqb c "/" || has_slash rest
  end.

Definition refused (path : string) : option exn :=
  if has_slash (String.substring 25 (String.length path) path)
  then Some (OtherError "FileNotFoundError")
  else None.

(** One chunk holding the whole text. *)
Definition chunk_text (text : string) : res (list value) :=
  Ok [VDict [("text", VStr text);
             ("metadata", VDict [("source_type", VStr "email");
                                 ("accessType", VStr "private")])]].

Definition embed (chunks : list value) : res (list value) := Ok chunks.

Definition clock1 : Ingestion.Clock :=
  {| Ingestion.utcnow_strftime := "20240101_120000";
     Ingestion.utcnow_isoformat := "2024-01-01T12:00:01.500000" |}.

Definition clock2 : Ingestion.Clock :=
  {| Ingestion.utcnow_strftime := "20240101_120500";
     Ingestion.utcnow_isoformat := "2024-01-01T12:05:01.250000" |}.

Definition message (id : string) (html : string) : value :=
  VDict [("id", VStr id);
         ("subject", VStr "Quarterly report");
         ("from", VDict [("emailAddress",
                          VDict [("name", VStr "Ada"); ("address", VStr "ada@example.com")])]);
         ("sentDateTime", VStr "2024-01-01T11:59:00Z");
         ("ccRecipients", VList [VDict [("emailAddress",
                          VDict [("name", VStr "Bob"); ("address", VStr "bob@example.com")])]]);
         ("hasAttachments", VBool false);
         ("body", VDict [("contentType", VStr "html"); ("content", VStr html)])].

Definition hello : value := message "AAMkAD-1" "<p>Hello team</p>".
Definition hello_again : value := message "AAMkAD-1" "<p>Hello team (resent)</p>".
Definition other : value := message "AAMkAD-2" "<div>Minutes attached</div>".
Definition blank : value := message "AAMkAD-3" "<p> </p>".

(** U+00A0, the no-break space, and U+D800, a surrogate, in bytes. *)
Definition nbsp : string :=
  String (ascii_of_nat 194) (String (ascii_of_nat 160) EmptyString).

Definition surrogate : string :=
  String (ascii_of_nat 237) (String (ascii_of_nat 160) (String (ascii_of_nat 128) EmptyString)).

(** A body of no-break spaces, a blank message whose id cannot be
    printed, and a message whose id has a ["/"] in it. *)
Definition blank_nbsp : value := message "AAMkAD-5" ("<p>" ++ nbsp ++ "</p> " ++ nbsp)%string.
Definition blank_unprintable : value := message ("AAMkAD-" ++ surrogate)%string "<p> </p>".
Definition hello_slash : value := message "AAMkAD/6=" "<p>Hello team</p>".

(** A message whose text has a surrogate in it. *)
Definition hello_unencodable : value :=
  message "AAMkAD-7" ("<p>Hello " ++ surrogate ++ "</p>")%string.

Definition callback_url : value := VStr "https://miner.example.com/email/graph-webhook".
Definition target_resource : string := "users/ada@example.com/mailFolders('Inbox')/messages".

(** An identity provider that issues a token and a mail provider that
    answers every request with the success status the code looks for. *)
Definition msal (history : list Subscription.Call) (c : Subscription.Call) : res value :=
  match c with
  | Subscription.AcquireTokenForClient => Ok (VDict [("access_token", VStr "eyJ0")])
  | _ => Ok VNone
  end.

Definition respond (status : Z) (body : value) : Subscription.HttpResponse :=
  {| Subscription.status_code := status; Subscription.json := Ok body;
     Subscription.text := "" |}.

Definition http (history : list Subscription.Call) (c : Subscription.Call)
    : res Subscription.HttpResponse :=
  match c with
  | Subscription.GetSubscriptions _ => Ok (respond 200 (VDict [("value", VList [])]))
  | Subscription.DeleteSubscription _ _ => Ok (respond 204 VNone)
  | Subscription.PostSubscription _ _ => Ok (respond 201 (VDict [("id", VStr "sub-1")]))
  | Subscription.PatchSubscription _ _ _ => Ok (respond 200 (VDict [("id", VStr "sub-1")]))
  | _ => Raise (OtherError "ConnectionError")
  end.

(** A mail provider that refuses to create subscriptions. *)
Definition http_refusing (history : list Subscription.Call) (c : Subscription.Call)
    : res Subscription.HttpResponse :=
  match c with
  | Subscription.PostSubscription _ _ =>
      Ok {| Subscription.status_code := 400;
            Subscription.json := Ok (VDict [("error", VStr "BadRequest")]);
            Subscription.text := "Bad Request" |}
  | _ => http history c
  end.

(** A clock that advances one second per call made, and the seconds
    printed in decimal in place of an ISO date. *)
Definition utcnow (history : list Subscription.Call) : Z :=
  (1704110400 + Z.of_nat (List.length history))%Z.

Definition isoformat (t : Z) : string :=
  NilZero.string_of_int (Z.to_int t).

(** A chunker whose chunks carry no metadata, and an embedding that
    fails. *)
Definition chunk_bare (text : string) : res (list value) :=
  Ok [VDict [("text", VStr text)]].

Definition embed_failing (chunks : list value) : res (list value) :=
  Raise (OtherError "RuntimeError").

(** A draft: no sender yet. *)
Definition draft : value :=
  VDict [("id", VStr "AAMkAD-4"); ("subject", VStr "Draft"); ("from", VNone);
         ("body", VDict [("content", VStr "<p>to be sent</p>")])].

(** A store whose metadata file holds a JSON object, and one that holds
    two records and then a number. *)
Definition store_with_object : Ingestion.Storage :=
  Ingestion.set_metadata_file (Some (JSON (VDict [("records", VList [])])))
    Ingestion.empty_storage.

Definition store_with_junk : Ingestion.Storage :=
  Ingestion.set_metadata_file
    (Some (JSON (VList [VDict [("email_id", VStr "AAMkAD-2")];
                        VDict [("email_id", VStr "AAMkAD-1")];
                        VInt 7])))
    Ingestion.empty_storage.

(** The identity provider and the mail provider as the fetch sees them:
    a token is issued, and the GET of a message answers with [hello]. *)
Definition fetch_msal (history : list Fetch.Call) (c : Fetch.Call) : res value :=
  match c with
  | Fetch.AcquireTokenForClient => Ok (VDict [("access_token", VStr "eyJ0")])
  | _ => Ok VNone
  end.

Definition fetch_msal_denied (history : list Fetch.Call) (c : Fetch.Call) : res value :=
  match c with
  | Fetch.AcquireTokenForClient => Ok (VDict [("error", VStr "invalid_client")])
  | _ => Ok VNone
  end.

Definition client_get (history : list Fetch.Call) (c : Fetch.Call) : res Fetch.Response :=
  match c with
  | Fetch.GetMessage _ _ =>
      Ok {| Fetch.raise_for_status := Ok tt; Fetch.json := Ok hello |}
  | _ => Raise (OtherError "ConnectError")
  end.

Definition fetch_world : Fetch.World :=
  {| Fetch.calls := []; Fetch.storage := Ingestion.empty_storage |}.

(** An identity provider that issues no token, a listing with a
    subscription for another resource before the one for the target, and
    a world with a cached id. *)
Definition msal_denied (history : list Subscription.Call) (c : Subscription.Call)
    : res value :=
  match c with
  | Subscription.AcquireTokenForClient => Ok (VDict [("error", VStr "invalid_client")])
  | _ => Ok VNone
  end.

Definition listed : list value :=
  [VDict [("id", VStr "sub-0"); ("resource", VStr "users/bob@example.com/messages")];
   VDict [("id", VStr "sub-1"); ("resource", VStr target_resource)];
   VDict [("id", VStr "sub-2"); ("resource", VStr target_resource)]].

Definition http_listing (history : list Subscription.Call) (c : Subscription.Call)
    : res Subscription.HttpResponse :=
  match c with
  | Subscription.GetSubscriptions _ => Ok (respond 200 (VDict [("value", VList listed)]))
  | Subscription.DeleteSubscription id _ =>
      Ok (respond (if py_eq id (VStr "sub-0") then 404 else 204) VNone)
  | _ => http history c
  end.

Definition world_cached : Subscription.World :=
  Subscription.set_current_subscription_id (VStr "sub-1")
    (Subscription.start_scheduler Subscription.initial_world).

End Sample.

(** * Properties *)

(** ** The webhook gateway *)

Section GatewayFacts.

Import Gateway.

Lemma str_truthy_some (token : string) :
  token <> "" -> str_truthy (Some token) = true.
Proof.
  intros Hne. unfold str_truthy.
  destruct (String.eqb_spec token ""); [contradiction | reflexivity].
Qed.

(** A truthy token is answered before the method is looked at. *)
Lemma token_is_echoed (request : Request) (token : string) (tasks : BackgroundTasks) :
  query_get "validationToken" (query_params request) = Some token ->
  token <> "" ->
  handle_graph_webhook request tasks = (Ok (PlainTextResponse (Some token) 200), tasks).
Proof.
  intros Hget Hne. unfold handle_graph_webhook.
  rewrite Hget, (str_truthy_some _ Hne). reflexivity.
Qed.

(** C5, as stated, fails: a GET whose [validationToken] parameter is
    present but blank is not echoed with status 200; the handler falls
    through to the 405 answer. *)
Lemma blank_validation_token_get_405 :
  let request := {| method := "GET";
                    query_params := [("validationToken", "")];
                    json := NotJSON |} in
  query_get "validationToken" (query_params request) = Some "" /\
  handle_graph_webhook request [] = (Ok (PlainTextResponse None 405), []) /\
  status (PlainTextResponse None 405) <> 200%Z.
Proof. repeat split. discriminate. Qed.

(** C5, amended: a GET request whose [validationToken] parameter is not
    blank is answered with exactly the token as body, status 200 and
    content type text/plain. *)
Theorem validation_handshake_get (request : Request) (token : string)
    (tasks : BackgroundTasks) :
  method request = "GET" ->
  query_get "validationToken" (query_params request) = Some token ->
  token <> "" ->
  exists response,
    handle_graph_webhook request tasks = (Ok response, tasks) /\
    body response = Some token /\
    status response = 200%Z /\
    media_type response = "text/plain".
Proof.
  intros _ Hget Hne. exists (PlainTextResponse (Some token) 200).
  rewrite (token_is_echoed request token tasks Hget Hne). repeat split.
Qed.

Lemma validation_handshake_get_ABC123 :
  exists response,
    handle_graph_webhook
      {| method := "GET"; query_params := [("validationToken", "ABC123")];
         json := NotJSON |} [] = (Ok response, []) /\
    body response = Some "ABC123" /\
    status response = 200%Z /\
    media_type response = "text/plain".
Proof.
  apply (validation_handshake_get
           {| method := "GET"; query_params := [("validationToken", "ABC123")];
              json := NotJSON |} "ABC123" []);
    [reflexivity | reflexivity | discriminate].
Defined.




(** C10: whatever the method and whatever the body, a request whose
    [validationToken] parameter is not blank is answered with the echo
    and status 200; the body is not parsed and no background task is
    scheduled. *)
Theorem token_echo_any_method (m : string) (q : list (string * string))
    (j : decoded) (token : string) (tasks : BackgroundTasks) :
  query_get "validationToken" q = Some token ->
  token <> "" ->
  handle_graph_webhook {| method := m; query_params := q; json := j |} tasks =
    (Ok (PlainTextResponse (Some token) 200), tasks).
Proof.
  intros Hget Hne. now apply token_is_echoed.
Qed.

Lemma token_echo_post_sample :
  handle_graph_webhook
    {| method := "POST"; query_params := [("validationToken", "ABC123")];
       json := JSON (VDict [("value", VList [VDict [("resource", VStr "me/messages/1")]])]) |}
    [] = (Ok (PlainTextResponse (Some "ABC123") 200), []).
Proof.
  apply (token_echo_any_method "POST" [("validationToken", "ABC123")]
           (JSON (VDict [("value", VList [VDict [("resource", VStr "me/messages/1")]])]))
           "ABC123" []);
    [reflexivity | discriminate].
Defined.

End GatewayFacts.

(** ** Frame reasoning in the monad *)

Section Frames.

Context {S V : Type} (proj : S -> V).

Lemma keeps_ret {A : Type} (a : A) : keeps proj (ret a).
Proof. intros s. reflexivity. Qed.

Lemma keeps_lift {A : Type} (r : res A) : keeps proj (lift r).
Proof. intros s. reflexivity. Qed.

Lemma keeps_raise {A : Type} (e : exn) : keeps proj (@raise S A e).
Proof. intros s. reflexivity. Qed.

Lemma keeps_gets {A : Type} (f : S -> A) : keeps proj (gets f).
Proof. intros s. reflexivity. Qed.

Lemma keeps_modify (f : S -> S) :
  (forall s, proj (f s) = proj s) -> keeps proj (modify f).
Proof. intros Hf s. apply Hf. Qed.

Lemma keeps_bind {A B : Type} (m : M S A) (k : A -> M S B) :
  keeps proj m -> (forall a, keeps proj (k a)) -> keeps proj (bind m k).
Proof.
  intros Hm Hk s. unfold bind. specialize (Hm s).
  destruct (m s) as [[a | e] s']; simpl in *.
  - rewrite Hk. exact Hm.
  - exact Hm.
Qed.

Lemma keeps_try_except {A : Type} (m : M S A) (h : exn -> M S A) :
  keeps proj m -> (forall e, keeps proj (h e)) -> keeps proj (try_except m h).
Proof.
  intros Hm Hh s. unfold try_except. specialize (Hm s).
  destruct (m s) as [[a | e] s']; simpl in *.
  - exact Hm.
  - rewrite Hh. exact Hm.
Qed.

Lemma keeps_for_each {A : Type} (xs : list A) (body : A -> M S unit) :
  (forall x, keeps proj (body x)) -> keeps proj (for_each xs body).
Proof.
  intros Hbody. induction xs as [| x xs IH]; simpl.
  - apply keeps_ret.
  - apply keeps_bind; [apply Hbody | intros _; exact IH].
Qed.

Lemma keeps_if {A : Type} (b : bool) (m1 m2 : M S A) :
  keeps proj m1 -> keeps proj m2 -> keeps proj (if b then m1 else m2).
Proof. destruct b; auto. Qed.

End Frames.

Create HintDb frame.
#[export] Hint Resolve keeps_ret keeps_lift keeps_raise keeps_gets keeps_bind
  keeps_try_except keeps_for_each keeps_if : frame.

(** ** The subscription manager and the scheduler *)

Section SubscriptionFacts.

Import Subscription.

Variable msal : list Call -> Call -> res value.
Variable http : list Call -> Call -> res HttpResponse.
Variable utcnow : list Call -> Z.
Variable isoformat : Z -> string.
Variable CALLBACK_URL : value.
Variable RESOURCE : string.

Local Abbreviation get_access_token := (get_access_token msal).
Local Abbreviation delete_all_subscriptions := (delete_all_subscriptions http).
Local Abbreviation create_subscription :=
  (create_subscription http utcnow isoformat CALLBACK_URL RESOURCE).
Local Abbreviation renew_subscription := (renew_subscription msal http utcnow isoformat).
Local Abbreviation run_scheduled_check :=
  (run_scheduled_check msal http utcnow isoformat CALLBACK_URL RESOURCE).
Local Abbreviation tick := (tick msal http utcnow isoformat CALLBACK_URL RESOURCE).
Local Abbreviation ticks := (ticks msal http utcnow isoformat CALLBACK_URL RESOURCE).

Lemma call_msal_keeps_globals (c : Call) : keeps globals (call_msal msal c).
Proof. intros w. reflexivity. Qed.

Lemma request_keeps_globals (c : Call) : keeps globals (request http c).
Proof. intros w. reflexivity. Qed.

Hint Resolve call_msal_keeps_globals request_keeps_globals : frame.

Lemma get_access_token_keeps_globals : keeps globals get_access_token.
Proof. unfold Subscription.get_access_token. auto 10 with frame. Qed.

Lemma delete_all_subscriptions_keeps_globals (token : value) :
  keeps globals (delete_all_subscriptions token).
Proof. unfold Subscription.delete_all_subscriptions. auto 15 with frame. Qed.

Hint Resolve get_access_token_keeps_globals delete_all_subscriptions_keeps_globals : frame.

Lemma renew_subscription_keeps_globals : keeps globals renew_subscription.
Proof. unfold Subscription.renew_subscription. auto 20 with frame. Qed.

Lemma globals_schedule (w w' : World) : globals w' = globals w -> schedule w' = schedule w.
Proof. unfold globals, schedule. intros H. injection H as _ -> ->. reflexivity. Qed.

Lemma keeps_globals_schedule {A : Type} (m : M World A) :
  keeps globals m -> keeps schedule m.
Proof. intros H w. apply globals_schedule, H. Qed.

Lemma create_subscription_keeps_schedule (token : value) :
  keeps schedule (create_subscription token).
Proof.
  unfold Subscription.create_subscription.
  apply keeps_bind; [apply keeps_gets | intros now].
  apply keeps_bind; [apply keeps_globals_schedule, request_keeps_globals | intros response].
  apply keeps_if; [| apply keeps_ret].
  apply keeps_bind; [apply keeps_lift | intros created].
  apply keeps_bind; [apply keeps_lift | intros sub_id].
  apply keeps_bind; [| intros _; apply keeps_ret].
  apply keeps_modify. reflexivity.
Qed.

Lemma renew_subscription_needs_id (w w' : World) :
  renew_subscription w = (Ok true, w') -> truthy (current_subscription_id w) = true.
Proof.
  unfold Subscription.renew_subscription, bind, gets. simpl.
  destruct (truthy (current_subscription_id w)); [reflexivity | discriminate].
Qed.

(** With the slow schedule installed, a firing of the job leaves the flag
    and the jobs as they are. *)
Lemma slow_tick_keeps_schedule (w : World) :
  use_fast_scheduler w = false -> schedule (tick w) = schedule w.
Proof.
  intros Hslow. unfold Subscription.tick, Subscription.run_scheduled_check.
  unfold bind at 1. unfold gets at 1. simpl.
  destruct (truthy (current_subscription_id w)).
  - unfold bind at 1.
    pose proof (renew_subscription_keeps_globals w) as Hk.
    destruct (renew_subscription w) as [[success | e] w1]; simpl in *.
    + apply globals_schedule in Hk.
      assert (Hfast : use_fast_scheduler w1 = false).
      { unfold schedule in Hk. injection Hk as -> _. exact Hslow. }
      unfold bind, gets. rewrite Hfast, andb_false_r. exact Hk.
    + apply globals_schedule, Hk.
  - change (schedule (snd (
      (token <- get_access_token ;;
       if negb (truthy token) then ret tt
       else delete_all_subscriptions token ;;
            created <- create_subscription token ;;
            (if created then renew_subscription ;; ret tt else ret tt)) w)) = schedule w).
    apply (keeps_bind schedule).
    + apply keeps_globals_schedule, get_access_token_keeps_globals.
    + intros token. apply keeps_if; [apply keeps_ret |].
      apply keeps_bind;
        [apply keeps_globals_schedule, delete_all_subscriptions_keeps_globals | intros _].
      apply keeps_bind; [apply create_subscription_keeps_schedule | intros created].
      apply keeps_if; [| apply keeps_ret].
      apply keeps_bind; [| intros _; apply keeps_ret].
      apply keeps_globals_schedule, renew_subscription_keeps_globals.
Qed.

Lemma slow_ticks_keep_schedule (n : nat) (w : World) :
  use_fast_scheduler w = false -> schedule (ticks n w) = schedule w.
Proof.
  revert w. induction n as [| n IH]; intros w Hslow; simpl.
  - reflexivity.
  - pose proof (slow_tick_keeps_schedule w Hslow) as Hstep.
    rewrite IH, Hstep; [reflexivity |].
    unfold schedule in Hstep. injection Hstep as -> _. exact Hslow.
Qed.

(** C4: called while no subscription id is cached, [renew_subscription]
    returns [False] and leaves the world as it was; in particular the
    record of calls is unchanged: neither the token acquisition nor the
    PATCH request is issued. *)
Theorem renew_without_id_makes_no_call (w : World) :
  truthy (current_subscription_id w) = false ->
  renew_subscription w = (Ok false, w) /\
  calls (snd (renew_subscription w)) = calls w.
Proof.
  intros Hnone.
  assert (H : renew_subscription w = (Ok false, w)).
  { unfold Subscription.renew_subscription, bind, gets. simpl. rewrite Hnone. reflexivity. }
  rewrite H. split; reflexivity.
Qed.


(** C2: from a state with no cached id, the fast flag and the 15-second
    job, let a tick run the recovery with [create] and the [renew] after
    it both successful.  That tick leaves the schedule fast; the next tick
    does what [renew_subscription] does and nothing else, and when that
    renewal succeeds it installs the 40-hour job and clears the flag;
    whatever happens in later ticks, the flag stays cleared and the job
    stays at 40 hours. *)
Theorem fast_to_slow_after_recovery (w0 w1 w2 w3 w4 w5 : World) (token : value) :
  truthy (current_subscription_id w0) = false ->
  use_fast_scheduler w0 = true ->
  jobs w0 = [("scheduled_check", seconds 15)] ->
  get_access_token w0 = (Ok token, w1) ->
  truthy token = true ->
  delete_all_subscriptions token w1 = (Ok tt, w2) ->
  create_subscription token w2 = (Ok true, w3) ->
  renew_subscription w3 = (Ok true, w4) ->
  renew_subscription w4 = (Ok true, w5) ->
  (run_scheduled_check w0 = (Ok tt, w4) /\
   use_fast_scheduler w4 = true /\ cadence w4 = Some (seconds 15)) /\
  (run_scheduled_check w4 =
     (Ok tt, set_jobs [("scheduled_check", hours 40)] (set_use_fast_scheduler false w5)) /\
   calls (tick w4) = calls w5) /\
  (forall n, use_fast_scheduler (ticks n (tick w4)) = false /\
             cadence (ticks n (tick w4)) = Some (hours 40)).
Proof.
  intros Hnone Hfast Hjobs Htoken Htruthy Hdelete Hcreate Hrenew Hrenew'.
  (* the schedule is carried from w0 to w4 and on to w5 *)
  pose proof (get_access_token_keeps_globals w0) as K1. rewrite Htoken in K1.
  pose proof (delete_all_subscriptions_keeps_globals token w1) as K2. rewrite Hdelete in K2.
  pose proof (create_subscription_keeps_schedule token w2) as K3. rewrite Hcreate in K3.
  pose proof (renew_subscription_keeps_globals w3) as K4. rewrite Hrenew in K4.
  pose proof (renew_subscription_keeps_globals w4) as K5. rewrite Hrenew' in K5.
  simpl in K1, K2, K3, K4, K5.
  apply globals_schedule in K1, K2. pose proof (globals_schedule _ _ K4) as K4'.
  assert (Hs4 : schedule w4 = (true, [("scheduled_check", seconds 15)])).
  { rewrite K4', K3, K2, K1. unfold schedule. rewrite Hfast, Hjobs. reflexivity. }
  assert (Hfast4 : use_fast_scheduler w4 = true).
  { unfold schedule in Hs4. now injection Hs4. }
  assert (Hjobs4 : jobs w4 = [("scheduled_check", seconds 15)]).
  { unfold schedule in Hs4. now injection Hs4. }
  assert (Hid4 : truthy (current_subscription_id w4) = true).
  { apply (renew_subscription_needs_id w4 w5 Hrenew'). }
  assert (Hfast5 : use_fast_scheduler w5 = true).
  { unfold globals in K5. injection K5 as _ -> _. exact Hfast4. }
  assert (Hjobs5 : jobs w5 = [("scheduled_check", seconds 15)]).
  { unfold globals in K5. injection K5 as _ _ ->. exact Hjobs4. }
  assert (Htick2 : run_scheduled_check w4 =
    (Ok tt, set_jobs [("scheduled_check", hours 40)] (set_use_fast_scheduler false w5))).
  { unfold Subscription.run_scheduled_check.
    unfold bind at 1. unfold gets at 1. rewrite Hid4.
    unfold bind at 1. rewrite Hrenew'.
    unfold bind at 1. unfold gets at 1. rewrite Hfast5. simpl.
    unfold bind, modify, remove_job, add_job. simpl. rewrite Hjobs5. reflexivity. }
  split; [| split].
  - split; [| split].
    + unfold Subscription.run_scheduled_check.
      unfold bind at 1. unfold gets at 1. rewrite Hnone.
      unfold bind at 1. rewrite Htoken, Htruthy. simpl.
      unfold bind at 1. rewrite Hdelete.
      unfold bind at 1. rewrite Hcreate.
      unfold bind at 1. rewrite Hrenew. reflexivity.
    + exact Hfast4.
    + unfold cadence. rewrite Hjobs4. reflexivity.
  - split; [exact Htick2 |].
    unfold Subscription.tick. rewrite Htick2. reflexivity.
  - intros n.
    assert (Hslow : schedule (tick w4) = (false, [("scheduled_check", hours 40)])).
    { unfold Subscription.tick. rewrite Htick2. reflexivity. }
    assert (Hflag : use_fast_scheduler (tick w4) = false).
    { unfold schedule in Hslow. now injection Hslow. }
    pose proof (slow_ticks_keep_schedule n _ Hflag) as Hn. rewrite Hslow in Hn.
    unfold schedule in Hn. injection Hn as Hn1 Hn2.
    split; [exact Hn1 |]. unfold cadence. rewrite Hn2. reflexivity.
Qed.

End SubscriptionFacts.

(** ** The ingestion pipeline *)

Lemma assoc_set_key {A : Type} (k : string) (v : A) (kv : list (string * A)) :
  assoc k (set_key k v kv) = Some v.
Proof.
  induction kv as [| [k' v'] kv IH]; simpl.
  - now rewrite String.eqb_refl.
  - destruct (String.eqb k k') eqn:E; simpl; rewrite E; [reflexivity | exact IH].
Qed.

Lemma steps_of_keeps {S V A : Type} (proj : S -> V) (Q : V -> V -> Prop) (m : M S A) :
  (forall v, Q v v) -> keeps proj m -> steps proj Q m.
Proof. intros Hrefl Hm s. rewrite Hm. apply Hrefl. Qed.

(** A step that leaves the component alone, then the rest. *)
Lemma steps_after_keeps {S V A B : Type} (proj : S -> V) (Q : V -> V -> Prop)
    (m : M S A) (k : A -> M S B) :
  (forall v, Q v v) -> keeps proj m -> (forall a, steps proj Q (k a)) ->
  steps proj Q (bind m k).
Proof.
  intros Hrefl Hm Hk s. unfold bind. specialize (Hm s).
  destruct (m s) as [[a | e] s']; simpl in *.
  - rewrite <- Hm. apply Hk.
  - rewrite Hm. apply Hrefl.
Qed.

(** A step, then a rest that leaves the component alone. *)
Lemma steps_before_keeps {S V A B : Type} (proj : S -> V) (Q : V -> V -> Prop)
    (m : M S A) (k : A -> M S B) :
  steps proj Q m -> (forall a, keeps proj (k a)) -> steps proj Q (bind m k).
Proof.
  intros Hm Hk s. unfold bind. specialize (Hm s).
  destruct (m s) as [[a | e] s']; simpl in *.
  - rewrite Hk. exact Hm.
  - exact Hm.
Qed.

(** A pure computation, then the rest on what it returned. *)
Lemma steps_bind_lift {S V A B : Type} (proj : S -> V) (Q : V -> V -> Prop)
    (r : res A) (k : A -> M S B) :
  (forall v, Q v v) -> (forall a, r = Ok a -> steps proj Q (k a)) ->
  steps proj Q (bind (lift r) k).
Proof.
  intros Hrefl Hk s. unfold bind, lift. destruct r as [a | e]; simpl.
  - now apply Hk.
  - apply Hrefl.
Qed.

Lemma steps_if {S V A : Type} (proj : S -> V) (Q : V -> V -> Prop)
    (b : bool) (m1 m2 : M S A) :
  steps proj Q m1 -> steps proj Q m2 -> steps proj Q (if b then m1 else m2).
Proof. destruct b; auto. Qed.

(** *** Equality with a scalar *)

Lemma py_eq_scalar_refl (u : value) : is_scalar u = true -> py_eq u u = true.
Proof.
  destruct u as [| b | n | s | l | kv]; simpl; intros H; try discriminate.
  - reflexivity.
  - now destruct b.
  - apply Z.eqb_refl.
  - apply String.eqb_refl.
Qed.

Lemma py_eq_scalar_left (v u : value) :
  is_scalar u = true -> py_eq v u = true -> is_scalar v = true.
Proof.
  destruct u, v; simpl; intros; try discriminate; reflexivity.
Qed.

(** Two values equal to the same scalar are equal to each other. *)
Lemma py_eq_scalar_shift (u u' v : value) :
  is_scalar u = true -> py_eq u' u = true -> py_eq v u = true -> py_eq v u' = true.
Proof.
  intros Hu Hu' Hv.
  destruct u as [| b | n | s | l | kv]; try discriminate;
    destruct u' as [| b' | n' | s' | l' | kv']; try discriminate;
    destruct v as [| c | m | t | l'' | kv'']; try discriminate; simpl in *;
    try reflexivity;
    rewrite ?Bool.eqb_true_iff, ?Z.eqb_eq, ?String.eqb_eq in *;
    try congruence.
  subst n. destruct c, b'; simpl in Hv; congruence.
Qed.

Section IngestionFacts.

Import Ingestion.

Variable py_str : value -> string.
Variable get_text : value -> res string.
Variable chunk_text : string -> res (list value).
Variable embed : list value -> res (list value).
Variable refused : string -> option exn.

Local Abbreviation message_fields := (message_fields get_text).
Local Abbreviation process_and_store_email :=
  (process_and_store_email py_str get_text chunk_text embed refused).
Local Abbreviation ingest_all := (ingest_all py_str get_text chunk_text embed refused).
Local Abbreviation temp_file_path := (temp_file_path py_str).
Local Abbreviation text_stored := (text_stored py_str refused).
Local Abbreviation storing_text := (storing_text py_str).
Local Abbreviation skipping_text := (skipping_text py_str).

(** *** What the de-duplication finds *)

Lemma any_email_id_false (uid : value) (ms : list value) :
  any_email_id uid ms = Ok false -> filter (has_email_id uid) ms = [].
Proof.
  induction ms as [| m ms IH]; simpl; intros H; [reflexivity |].
  unfold has_email_id. destruct (dict_get m "email_id" VNone) as [v | e]; simpl in H.
  - destruct (py_eq v uid); [discriminate | auto].
  - discriminate.
Qed.

Lemma any_email_id_true (uid : value) (ms : list value) :
  any_email_id uid ms = Ok true -> filter (has_email_id uid) ms <> [].
Proof.
  induction ms as [| m ms IH]; simpl; intros H; [discriminate |].
  unfold has_email_id. destruct (dict_get m "email_id" VNone) as [v | e]; simpl in H.
  - destruct (py_eq v uid); [discriminate | auto].
  - discriminate.
Qed.

(** A record for [uid] is in the list: the search either stops at a match
    or raises on the way; it never answers [False]. *)
Lemma any_email_id_present (uid : value) (ms : list value) :
  filter (has_email_id uid) ms <> [] -> any_email_id uid ms <> Ok false.
Proof. intros Hne Hfalse. apply Hne, any_email_id_false, Hfalse. Qed.

Lemma has_email_id_shift (u u' m : value) :
  is_scalar u = true -> py_eq u' u = true ->
  has_email_id u m = true -> has_email_id u' m = true.
Proof.
  unfold has_email_id. intros Hu Hu'.
  destruct (dict_get m "email_id" VNone) as [v | e]; [| discriminate].
  apply py_eq_scalar_shift; assumption.
Qed.

Lemma filter_shift (u u' : value) (ms : list value) :
  is_scalar u = true -> py_eq u' u = true ->
  filter (has_email_id u') ms = [] -> filter (has_email_id u) ms = [].
Proof.
  intros Hu Hu'. induction ms as [| m ms IH]; simpl; [reflexivity |].
  destruct (has_email_id u m) eqn:E.
  - rewrite (has_email_id_shift u u' m Hu Hu' E). discriminate.
  - destruct (has_email_id u' m); [discriminate | exact IH].
Qed.

(** *** The metadata step *)

Lemma append_metadata_steps (uid entry : value) :
  dict_get entry "email_id" VNone = Ok uid ->
  steps metadata_file (one_append uid) (append_metadata uid entry).
Proof.
  intros Hentry st. unfold append_metadata, bind, modify, load_metadata, lift. simpl.
  destruct (metadata_file st) as [[| v | e] |] eqn:Hfile; simpl.
  - right. exists entry. repeat split; assumption.
  - destruct v as [| b | n | s | l | kv]; simpl; try (now left).
    + destruct (any_email_id uid (chars s)) as [[|] | e]; simpl; now left.
    + destruct (any_email_id uid l) as [[|] | e] eqn:Hany; simpl; try (now left).
      right. exists entry. repeat split; assumption.
    + destruct (any_email_id uid (map (fun p => VStr (fst p)) kv)) as [[|] | e];
        simpl; now left.
  - now left.
  - right. exists entry. repeat split; assumption.
Qed.

(** When the step returns, it has either found a record with the id and
    left the file alone, or found none and appended the entry. *)
Lemma append_metadata_returns (uid entry : value) (st st' : Storage) :
  append_metadata uid entry st = (Ok tt, st') ->
  (any_email_id uid (records (metadata_file st)) = Ok true /\
   metadata_file st' = metadata_file st) \/
  (any_email_id uid (records (metadata_file st)) = Ok false /\
   metadata_file st' = Some (JSON (VList (records (metadata_file st) ++ [entry])))).
Proof.
  unfold append_metadata, bind, modify, load_metadata, lift. simpl.
  destruct (metadata_file st) as [[| v | e] |] eqn:Hfile; simpl.
  - intros H. injection H as <-. right. split; reflexivity.
  - destruct v as [| b | n | s | l | kv]; simpl; try discriminate.
    + destruct s as [| c s]; simpl; discriminate.
    + destruct (any_email_id uid l) as [[|] | e] eqn:Hany; simpl; intros H;
        try discriminate.
      * injection H as <-. left. split; [reflexivity | exact Hfile].
      * injection H as <-. right. split; reflexivity.
    + destruct kv as [| p kv]; simpl; discriminate.
  - discriminate.
  - intros H. injection H as <-. right. split; reflexivity.
Qed.

(** A file on which [json.load] raises [JSONDecodeError] is read as no
    records and rewritten with the entry alone. *)
Lemma append_metadata_not_json (uid entry : value) (st : Storage) :
  metadata_file st = Some NotJSON ->
  append_metadata uid entry st =
    (Ok tt, set_metadata_file (Some (JSON (VList [entry]))) (set_lock_file true st)).
Proof.
  intros Hfile. unfold append_metadata, bind, modify, load_metadata, lift. simpl.
  rewrite Hfile. reflexivity.
Qed.

(** *** The steps around the metadata step *)

Lemma makedirs_keeps_metadata : keeps metadata_file (makedirs refused).
Proof.
  unfold makedirs. destruct (refused base_path);
    [apply keeps_raise | apply keeps_modify; reflexivity].
Qed.

Lemma write_text_keeps_metadata (path text : string) :
  keeps metadata_file (write_text refused path text).
Proof.
  unfold write_text. destruct (refused path); [apply keeps_raise |].
  destruct (has_lone_surrogate text); [| apply keeps_modify; reflexivity].
  apply keeps_bind; [apply keeps_modify; reflexivity | intros _; apply keeps_raise].
Qed.

Lemma chunker_chunk_keeps_metadata (path : string) :
  keeps metadata_file (chunker_chunk chunk_text path).
Proof. intros st. unfold chunker_chunk. now destruct (assoc path (temp_files st)). Qed.

Lemma build_or_append_index_keeps_metadata (chunks : list value) :
  keeps metadata_file (build_or_append_index embed chunks).
Proof.
  unfold build_or_append_index. apply keeps_bind; [apply keeps_lift | intros entries].
  apply keeps_modify. reflexivity.
Qed.

Lemma remove_keeps_metadata (path : string) : keeps metadata_file (remove path).
Proof. intros st. unfold remove. now destruct (assoc path (temp_files st)). Qed.

Lemma one_append_refl (uid : value) (file : option decoded) : one_append uid file file.
Proof. now left. Qed.

Ltac invert_rbind H :=
  repeat match type of H with
  | rbind ?r _ = Ok _ =>
      let E := fresh "E" in
      destruct r eqn:E; simpl in H; [| discriminate H]
  end.

Lemma message_fields_uid (email_data : value) (f : Fields) :
  message_fields email_data = Ok f -> dict_get email_data "id" VNone = Ok (uid f).
Proof.
  unfold Ingestion.message_fields. intros H. invert_rbind H.
  injection H as <-. reflexivity.
Qed.

(** One ingestion of a message with id [uid] does to the metadata file
    what [one_append uid] allows, however it ends. *)
Lemma process_steps (email_data : value) (clock : Clock) (u : value) :
  dict_get email_data "id" VNone = Ok u ->
  steps metadata_file (one_append u) (process_and_store_email email_data clock).
Proof.
  intros Hid. unfold Ingestion.process_and_store_email.
  apply steps_bind_lift; [apply one_append_refl | intros f Hf].
  apply message_fields_uid in Hf. rewrite Hid in Hf. injection Hf as ->.
  apply steps_if.
  { apply steps_of_keeps; [apply one_append_refl |].
    apply keeps_bind; [apply keeps_lift | intros _; apply keeps_ret]. }
  apply steps_after_keeps; [apply one_append_refl | apply keeps_lift | intros _].
  apply steps_after_keeps;
    [apply one_append_refl | apply makedirs_keeps_metadata | intros _; cbv zeta].
  apply steps_after_keeps;
    [apply one_append_refl | apply write_text_keeps_metadata | intros _].
  apply steps_after_keeps;
    [apply one_append_refl | apply chunker_chunk_keeps_metadata | intros chunks].
  apply steps_after_keeps;
    [apply one_append_refl | apply keeps_lift | intros chunks'].
  apply steps_after_keeps;
    [apply one_append_refl | apply build_or_append_index_keeps_metadata | intros _].
  apply steps_before_keeps; [| intros _; apply remove_keeps_metadata].
  apply append_metadata_steps. reflexivity.
Qed.

(** The same, for any [email_data] at all. *)
Lemma process_changes (email_data : value) (clock : Clock) (st : Storage) :
  metadata_file (snd (process_and_store_email email_data clock st)) = metadata_file st \/
  exists u,
    dict_get email_data "id" VNone = Ok u /\
    one_append u (metadata_file st)
      (metadata_file (snd (process_and_store_email email_data clock st))).
Proof.
  destruct (dict_get email_data "id" VNone) as [u | e] eqn:Hid.
  - right. exists u. split; [reflexivity |]. now apply process_steps.
  - left. unfold Ingestion.process_and_store_email, bind, lift, Ingestion.message_fields.
    rewrite Hid. reflexivity.
Qed.

(** How an ingestion whose body is not blank starts: the line about the
    message is not printed and nothing is written; or the directory is
    refused and nothing is written; or the temporary file is refused; or
    its text is not encoded and the file is left empty; or the text is
    stored. *)
Lemma process_start (email_data : value) (clock : Clock) (st : Storage) (f : Fields) :
  message_fields email_data = Ok f ->
  strip (plain_body f) <> "" ->
  let path := temp_file_path (uid f) (utcnow_strftime clock) in
  (exists e, print (storing_text f) = Raise e /\
             process_and_store_email email_data clock st = (Raise e, st)) \/
  (exists e, print (storing_text f) = Ok tt /\ refused base_path = Some e /\
             process_and_store_email email_data clock st = (Raise e, st)) \/
  (exists e, print (storing_text f) = Ok tt /\ refused base_path = None /\
             refused path = Some e /\
             process_and_store_email email_data clock st = (Raise e, set_base_dir true st)) \/
  (print (storing_text f) = Ok tt /\ refused base_path = None /\
   refused path = None /\ has_lone_surrogate (plain_body f) = true /\
   process_and_store_email email_data clock st =
     (Raise UnicodeEncodeError,
      set_temp_files (set_key path "" (temp_files st)) (set_base_dir true st))) \/
  text_stored f clock.
Proof.
  intros Hf Hbody path.
  assert (Htruthy : negb (truthy (VStr (strip (plain_body f)))) = false).
  { simpl. destruct (String.eqb_spec (strip (plain_body f)) ""); [contradiction | reflexivity]. }
  remember (process_and_store_email email_data clock st) as run eqn:Hrun.
  unfold Ingestion.process_and_store_email in Hrun.
  unfold bind at 1 in Hrun. unfold lift at 1 in Hrun. rewrite Hf, Htruthy in Hrun.
  cbv zeta in Hrun. fold path in Hrun.
  unfold bind at 1 in Hrun. unfold lift at 1 in Hrun.
  destruct (print (storing_text f)) as [[] | e] eqn:Hprint; [| left; now exists e].
  right. unfold bind at 1 in Hrun. unfold makedirs in Hrun.
  destruct (refused base_path) as [e |] eqn:Hbase; [left; now exists e |].
  right. unfold modify at 1 in Hrun. unfold bind at 1 in Hrun. unfold write_text in Hrun.
  destruct (refused path) as [e |] eqn:Hpath; [left; now exists e |].
  right. destruct (has_lone_surrogate (plain_body f)) eqn:Hbytes.
  - left. repeat split. exact Hrun.
  - right. repeat split; assumption.
Qed.

(** An ingestion whose body is blank ends at the line that reports the
    skip, with every file as it was. *)
Lemma process_skips (email_data : value) (clock : Clock) (st : Storage) (f : Fields) :
  message_fields email_data = Ok f ->
  strip (plain_body f) = "" ->
  process_and_store_email email_data clock st = (print (skipping_text f), st).
Proof.
  intros Hf Hblank.
  unfold Ingestion.process_and_store_email, bind, lift, ret. rewrite Hf, Hblank.
  cbn [truthy String.eqb negb].
  destruct (print (skipping_text f)) as [[] | e]; reflexivity.
Qed.

(** An ingestion whose body is not blank and whose text is stored chunks
    the temporary file, enriches and embeds the chunks and, when all of
    this returns, runs the metadata step and removes the temporary
    file. *)
Lemma process_unfold (email_data : value) (clock : Clock) (st : Storage) (f : Fields) :
  message_fields email_data = Ok f ->
  strip (plain_body f) <> "" ->
  text_stored f clock ->
  let path := temp_file_path (uid f) (utcnow_strftime clock) in
  let st0 :=
    set_temp_files (set_key path (plain_body f) (temp_files st)) (set_base_dir true st) in
  process_and_store_email email_data clock st =
    match chunk_text (plain_body f) with
    | Raise e => (Raise e, st0)
    | Ok chunks =>
        match map_res (enrich f (utcnow_strftime clock)) chunks with
        | Raise e => (Raise e, st0)
        | Ok chunks' =>
            match embed chunks' with
            | Raise e => (Raise e, st0)
            | Ok entries =>
                (append_metadata (uid f)
                   (metadata_entry f (utcnow_strftime clock) (List.length chunks')
                      (utcnow_isoformat clock)) ;;
                 remove path)
                  (set_index_file
                     (Some (match index_file st with Some old => old | None => [] end
                            ++ entries)) st0)
            end
        end
    end.
Proof.
  intros Hf Hbody (Hprint & Hbase & Hpath & Hbytes) path st0. fold path in Hpath.
  unfold Ingestion.process_and_store_email.
  unfold bind at 1. unfold lift at 1. rewrite Hf.
  assert (Htruthy : negb (truthy (VStr (strip (plain_body f)))) = false).
  { simpl. destruct (String.eqb_spec (strip (plain_body f)) ""); [contradiction | reflexivity]. }
  rewrite Htruthy. cbv zeta. fold path.
  unfold bind at 1. unfold lift at 1. rewrite Hprint.
  unfold bind at 1. unfold makedirs. rewrite Hbase. unfold modify at 1.
  unfold bind at 1. unfold write_text. rewrite Hpath, Hbytes. unfold modify at 1.
  unfold bind at 1. unfold chunker_chunk at 1. simpl temp_files.
  rewrite (assoc_set_key path (plain_body f) (temp_files st)). fold st0.
  destruct (chunk_text (plain_body f)) as [chunks | e]; [| reflexivity].
  unfold bind at 1. unfold lift at 1.
  destruct (map_res (enrich f (utcnow_strftime clock)) chunks) as [chunks' | e];
    [| reflexivity].
  unfold bind at 1. unfold build_or_append_index, bind at 1, lift at 1.
  destruct (embed chunks') as [entries | e]; reflexivity.
Qed.

(** When an ingestion with a body that is not blank returns, the metadata
    step has run to its end. *)
Lemma process_returns (email_data : value) (clock : Clock) (st : Storage) (f : Fields) :
  message_fields email_data = Ok f ->
  strip (plain_body f) <> "" ->
  fst (process_and_store_email email_data clock st) = Ok tt ->
  let new := metadata_file (snd (process_and_store_email email_data clock st)) in
  (any_email_id (uid f) (records (metadata_file st)) = Ok true /\
   new = metadata_file st) \/
  (exists entry,
     dict_get entry "email_id" VNone = Ok (uid f) /\
     new = Some (JSON (VList (records (metadata_file st) ++ [entry])))).
Proof.
  intros Hf Hbody.
  destruct (process_start email_data clock st f Hf Hbody)
    as [(e & _ & ->) | [(e & _ & _ & ->) | [(e & _ & _ & _ & ->)
        | [(_ & _ & _ & _ & ->) | Hstored]]]];
    try discriminate.
  rewrite (process_unfold email_data clock st f Hf Hbody Hstored). cbv zeta.
  destruct (chunk_text (plain_body f)) as [chunks | e]; [| discriminate].
  destruct (map_res (enrich f (utcnow_strftime clock)) chunks) as [chunks' | e];
    [| discriminate].
  destruct (embed chunks') as [entries | e]; [| discriminate].
  unfold bind.
  match goal with
  | |- context [append_metadata ?u ?entry ?s] =>
      destruct (append_metadata u entry s) as [[[] | e] st2] eqn:Happend
  end; [| discriminate].
  apply append_metadata_returns in Happend. simpl metadata_file in Happend.
  pose proof (remove_keeps_metadata
    (temp_file_path (uid f) (utcnow_strftime clock)) st2) as Hremove.
  intros _. cbv zeta. rewrite Hremove.
  destruct Happend as [[Hany Hsame] | [Hany Hnew]].
  - left. split; assumption.
  - right. eexists. split; [| exact Hnew]. reflexivity.
Qed.

(** *** Counting the records of an id *)

Lemma count_records_app (u : value) (old : option decoded) (entry : value) :
  count_records u (Some (JSON (VList (records old ++ [entry])))) =
  (count_records u old + (if has_email_id u entry then 1 else 0))%nat.
Proof.
  unfold count_records. simpl records. rewrite filter_app, length_app. simpl.
  destruct (has_email_id u entry); reflexivity.
Qed.

Lemma one_append_count (u u0 : value) (old new : option decoded) :
  is_scalar u = true ->
  one_append u0 old new ->
  (count_records u old <= count_records u new)%nat /\
  ((count_records u old <= 1)%nat -> (count_records u new <= 1)%nat).
Proof.
  intros Hu [-> | (entry & Hid & Hany & ->)]; [lia |].
  rewrite count_records_app. unfold has_email_id. rewrite Hid.
  destruct (py_eq u0 u) eqn:E; [| lia].
  apply any_email_id_false in Hany. apply (filter_shift u u0) in Hany; [| assumption ..].
  unfold count_records. rewrite Hany. simpl. lia.
Qed.

Lemma one_append_present (u : value) (old new : option decoded) :
  one_append u old new -> (1 <= count_records u old)%nat -> new = old.
Proof.
  intros [-> | (entry & Hid & Hany & ->)] Hcount; [reflexivity |].
  apply any_email_id_false in Hany. unfold count_records in Hcount.
  rewrite Hany in Hcount. simpl in Hcount. lia.
Qed.

Lemma process_count (u : value) (email_data : value) (clock : Clock) (st : Storage) :
  is_scalar u = true ->
  let new := metadata_file (snd (process_and_store_email email_data clock st)) in
  (count_records u (metadata_file st) <= count_records u new)%nat /\
  ((count_records u (metadata_file st) <= 1)%nat -> (count_records u new <= 1)%nat).
Proof.
  intros Hu new. subst new.
  destruct (process_changes email_data clock st) as [-> | (u0 & _ & Happend)]; [lia |].
  exact (one_append_count u u0 _ _ Hu Happend).
Qed.

Lemma ingest_all_count (u : value) (batch : list (value * Clock)) (st : Storage) :
  is_scalar u = true ->
  count_records u (metadata_file st) = 1%nat ->
  count_records u (metadata_file (ingest_all batch st)) = 1%nat.
Proof.
  intros Hu. revert st.
  induction batch as [| [email_data clock] batch IH]; intros st Hone; simpl.
  - exact Hone.
  - apply IH. pose proof (process_count u email_data clock st Hu) as [Hge Hle]. lia.
Qed.

(** *** The claims *)

(** The file changes only when the search for the id answers [False],
    and never when a record of the id is there. *)
Lemma append_only_when_absent (email_data : value) (clock : Clock) (st : Storage)
    (u : value) :
  dict_get email_data "id" VNone = Ok u ->
  let old := metadata_file st in
  let new := metadata_file (snd (process_and_store_email email_data clock st)) in
  (new <> old -> any_email_id u (records old) = Ok false) /\
  ((1 <= count_records u old)%nat -> new = old).
Proof.
  intros Hid old new. subst old new.
  pose proof (process_steps email_data clock u Hid st) as Hstep. split.
  - intros Hchanged. destruct Hstep as [Hsame | (entry & _ & Hany & _)];
      [contradiction | exact Hany].
  - intros Hcount. exact (one_append_present u _ _ Hstep Hcount).
Qed.

(** C1, amended: take a message whose body does not strip to blank text
    and whose ingestion returns, into a metadata file with at most one
    record of its id.  The file then holds exactly one record of that id;
    whatever is ingested afterwards, and however those ingestions end,
    ingesting a message with the same id again leaves the metadata file
    as it is, with exactly one record of that id.  Any ingestion changes
    the file only when no record in it has the id of the message, and
    leaves it alone when one has. *)
Theorem same_id_twice_one_record (u : value) (first second : value)
    (clock1 clock2 : Clock) (between : list (value * Clock)) (st : Storage) (f : Fields) :
  is_scalar u = true ->
  dict_get first "id" VNone = Ok u ->
  dict_get second "id" VNone = Ok u ->
  message_fields first = Ok f ->
  strip (plain_body f) <> "" ->
  fst (process_and_store_email first clock1 st) = Ok tt ->
  (count_records u (metadata_file st) <= 1)%nat ->
  let st1 := snd (process_and_store_email first clock1 st) in
  let st2 := ingest_all between st1 in
  let st3 := snd (process_and_store_email second clock2 st2) in
  (count_records u (metadata_file st1) = 1%nat /\
   metadata_file st3 = metadata_file st2 /\
   count_records u (metadata_file st3) = 1%nat) /\
  (forall email_data clock s v,
     dict_get email_data "id" VNone = Ok v ->
     let old := metadata_file s in
     let new := metadata_file (snd (process_and_store_email email_data clock s)) in
     (new <> old -> any_email_id v (records old) = Ok false) /\
     ((1 <= count_records v old)%nat -> new = old)).
Proof.
  intros Hu Hfirst Hsecond Hf Hbody Hok Hcount st1 st2 st3.
  split; [| intros email_data clock s v Hid; now apply append_only_when_absent].
  assert (Huid : uid f = u).
  { apply message_fields_uid in Hf. rewrite Hfirst in Hf. now injection Hf. }
  assert (H1 : count_records u (metadata_file st1) = 1%nat).
  { pose proof (process_count u first clock1 st Hu) as [Hge Hle]. fold st1 in Hge, Hle.
    specialize (Hle Hcount).
    assert (1 <= count_records u (metadata_file st1))%nat; [| lia].
    pose proof (process_returns first clock1 st f Hf Hbody Hok) as Hret.
    cbv zeta in Hret. fold st1 in Hret. rewrite Huid in Hret.
    destruct Hret as [[Hany Hsame] | (entry & Hid & Hnew)].
    - rewrite Hsame. apply any_email_id_true in Hany. unfold count_records.
      destruct (filter (has_email_id u) (records (metadata_file st))); [contradiction |].
      simpl. lia.
    - rewrite Hnew, count_records_app. unfold has_email_id.
      rewrite Hid, (py_eq_scalar_refl u Hu). lia. }
  assert (H2 : count_records u (metadata_file st2) = 1%nat).
  { now apply ingest_all_count. }
  assert (H3 : metadata_file st3 = metadata_file st2).
  { apply (one_append_present u); [| lia].
    now apply process_steps. }
  split; [exact H1 | split; [exact H3 |]]. rewrite H3. exact H2.
Qed.



(** C9: whatever the message and however the ingestion ends, the
    metadata file is afterwards either what it was or the list of the
    records it held followed by one new record; the records it held are
    kept, unmodified and in their order. *)
Theorem existing_records_are_kept (email_data : value) (clock : Clock) (st : Storage) :
  let old := metadata_file st in
  let new := metadata_file (snd (process_and_store_email email_data clock st)) in
  (new = old \/ exists entry, new = Some (JSON (VList (records old ++ [entry])))) /\
  (exists added, records new = records old ++ added).
Proof.
  intros old new. subst old new.
  destruct (process_changes email_data clock st)
    as [-> | (u & _ & [-> | (entry & _ & _ & ->)])].
  - split; [now left | exists []; now rewrite app_nil_r].
  - split; [now left | exists []; now rewrite app_nil_r].
  - split; [right; now exists entry | exists [entry]; reflexivity].
Qed.

End IngestionFacts.

(** ** Runs on the samples *)

Section IngestionRuns.

Import Ingestion.

Local Abbreviation run :=
  (process_and_store_email Sample.str Sample.get_text Sample.chunk_text Sample.embed
     Sample.refused).
Local Abbreviation run_all :=
  (ingest_all Sample.str Sample.get_text Sample.chunk_text Sample.embed Sample.refused).

(** C1, as stated, fails: a message whose body strips to blank text
    (here, no-break spaces), ingested twice into an empty store, leaves
    no record of its id, not exactly one. *)
Lemma blank_twice_no_record :
  let st1 := snd (run Sample.blank_nbsp Sample.clock1 empty_storage) in
  let st2 := snd (run Sample.blank_nbsp Sample.clock2 st1) in
  dict_get Sample.blank_nbsp "id" VNone = Ok (VStr "AAMkAD-5") /\
  fst (run Sample.blank_nbsp Sample.clock1 empty_storage) = Ok tt /\
  count_records (VStr "AAMkAD-5") (metadata_file st2) = 0%nat /\
  count_records (VStr "AAMkAD-5") (metadata_file st2) <> 1%nat.
Proof. vm_compute. repeat split. discriminate. Qed.

Lemma same_id_twice_sample :
  let st1 := snd (run Sample.hello Sample.clock1 empty_storage) in
  let st2 := run_all [(Sample.other, Sample.clock1); (Sample.blank, Sample.clock2)] st1 in
  let st3 := snd (run Sample.hello_again Sample.clock2 st2) in
  count_records (VStr "AAMkAD-1") (metadata_file st1) = 1%nat /\
  metadata_file st3 = metadata_file st2 /\
  count_records (VStr "AAMkAD-1") (metadata_file st3) = 1%nat.
Proof.
  eapply proj1.
  eapply (same_id_twice_one_record Sample.str Sample.get_text Sample.chunk_text
            Sample.embed Sample.refused (VStr "AAMkAD-1") Sample.hello Sample.hello_again
            Sample.clock1 Sample.clock2
            [(Sample.other, Sample.clock1); (Sample.blank, Sample.clock2)]
            empty_storage).
  - reflexivity.
  - reflexivity.
  - reflexivity.
  - reflexivity.
  - simpl. discriminate.
  - reflexivity.
  - vm_compute. lia.
Defined.





End IngestionRuns.

Section SubscriptionRuns.

Import Subscription.

Local Abbreviation renew :=
  (renew_subscription Sample.msal Sample.http Sample.utcnow Sample.isoformat).
Local Abbreviation check :=
  (run_scheduled_check Sample.msal Sample.http Sample.utcnow Sample.isoformat
     Sample.callback_url Sample.target_resource).
Local Abbreviation checks :=
  (ticks Sample.msal Sample.http Sample.utcnow Sample.isoformat
     Sample.callback_url Sample.target_resource).

Lemma renew_without_id_sample :
  renew initial_world = (Ok false, initial_world) /\
  calls (snd (renew initial_world)) = [].
Proof.
  apply (renew_without_id_makes_no_call Sample.msal Sample.http Sample.utcnow
           Sample.isoformat initial_world).
  reflexivity.
Defined.



Lemma fast_to_slow_sample :
  let w0 := start_scheduler initial_world in
  let w4 := snd (check w0) in
  let w6 := snd (check w4) in
  (use_fast_scheduler w4 = true /\ cadence w4 = Some 15%Z) /\
  (use_fast_scheduler w6 = false /\ cadence w6 = Some 144000%Z) /\
  (forall n, use_fast_scheduler (checks n w6) = false /\
             cadence (checks n w6) = Some 144000%Z).
Proof.
  intros w0 w4 w6.
  edestruct (fast_to_slow_after_recovery Sample.msal Sample.http Sample.utcnow
               Sample.isoformat Sample.callback_url Sample.target_resource w0)
    as [[Hfirst [Hfast Hcadence]] [[Hsecond _] Hlater]].
  - reflexivity.
  - reflexivity.
  - reflexivity.
  - cbv. reflexivity.
  - reflexivity.
  - cbv. reflexivity.
  - cbv. reflexivity.
  - cbv. reflexivity.
  - cbv. reflexivity.
  - subst w4 w6. rewrite Hfirst. simpl snd.
    split; [split; assumption |]. split.
    + unfold tick in Hlater. specialize (Hlater 0%nat). simpl in Hlater. exact Hlater.
    + exact Hlater.
Defined.

End SubscriptionRuns.

(** * Further properties *)

(** ** The webhook gateway: notification batches *)

Section GatewayBatches.

Import Gateway.

Local Abbreviation schedule_one :=
  (fun notification : value =>
     resource <- lift (dict_get notification "resource" (VStr "")) ;;
     lift (print resource) ;;
     add_task resource).

Local Abbreviation resource_of :=
  (fun notification : value => dict_get notification "resource" (VStr "")).

Local Abbreviation printable :=
  (fun resource : value => print resource = Ok tt).

Local Abbreviation accepted :=
  (JSONResponse (VDict [("status", VStr "Notification received")]) 202).

Local Abbreviation invalid :=
  (JSONResponse (VDict [("error", VStr "Invalid JSON")]) 400).

Lemma print_banner : print (VStr "New email notification received:") = Ok tt.
Proof. reflexivity. Qed.

(** Only a text is printed as it is. *)
Lemma print_object (payload : value) (k : string) (default v : value) :
  dict_get payload k default = Ok v -> print payload = Ok tt.
Proof. destruct payload; simpl; intros H; try discriminate; reflexivity. Qed.

(** One turn of the loop whose resource is read and printed. *)
Lemma schedule_one_returns (n r : value) (tasks : BackgroundTasks) :
  dict_get n "resource" (VStr "") = Ok r -> print r = Ok tt ->
  (resource <- lift (dict_get n "resource" (VStr "")) ;;
   lift (print resource) ;;
   add_task resource) tasks = (Ok tt, tasks ++ [r]).
Proof.
  intros Hn Hr. unfold bind, lift, add_task, modify. rewrite Hn, Hr. reflexivity.
Qed.

(** One turn of the loop that raises: nothing is scheduled in it. *)
Lemma schedule_one_raises (n : value) (e : exn) (tasks : BackgroundTasks) :
  dict_get n "resource" (VStr "") = Raise e \/
    (exists r, dict_get n "resource" (VStr "") = Ok r /\ print r = Raise e) ->
  (resource <- lift (dict_get n "resource" (VStr "")) ;;
   lift (print resource) ;;
   add_task resource) tasks = (Raise e, tasks).
Proof.
  intros [Hn | (r & Hn & Hr)]; unfold bind, lift; rewrite Hn; [| rewrite Hr]; reflexivity.
Qed.

(** The loop schedules the notifications in order up to the first one
    that has no [get] or whose resource is not printed. *)
Lemma schedule_loop_returns (items resources : list value) (tasks : BackgroundTasks) :
  map_res resource_of items = Ok resources ->
  Forall printable resources ->
  for_each items schedule_one tasks = (Ok tt, tasks ++ resources).
Proof.
  revert resources tasks. induction items as [| n items IH]; simpl;
    intros resources tasks H Hprint.
  - injection H as <-. now rewrite app_nil_r.
  - unfold rbind in H. destruct (dict_get n "resource" (VStr "")) as [r | e] eqn:Hn;
      [| discriminate].
    destruct (map_res resource_of items) as [rs | e] eqn:Hrest; [| discriminate].
    injection H as <-. inversion Hprint as [| r' rs' Hr Hrs]; subst.
    unfold bind at 1. rewrite <- Hn, (schedule_one_returns n r tasks Hn Hr).
    rewrite (IH rs (tasks ++ [r]) eq_refl Hrs).
    now rewrite <- app_assoc.
Qed.

Lemma schedule_loop_raises (good rest resources : list value) (bad : value) (e : exn)
    (tasks : BackgroundTasks) :
  map_res resource_of good = Ok resources ->
  Forall printable resources ->
  dict_get bad "resource" (VStr "") = Raise e \/
    (exists r, dict_get bad "resource" (VStr "") = Ok r /\ print r = Raise e) ->
  for_each (good ++ bad :: rest) schedule_one tasks = (Raise e, tasks ++ resources).
Proof.
  revert resources tasks. induction good as [| n good IH]; simpl;
    intros resources tasks H Hprint Hbad.
  - injection H as <-. unfold bind at 1.
    rewrite (schedule_one_raises bad e tasks Hbad). now rewrite app_nil_r.
  - unfold rbind in H. destruct (dict_get n "resource" (VStr "")) as [r | e'] eqn:Hn;
      [| discriminate].
    destruct (map_res resource_of good) as [rs | e'] eqn:Hrest; [| discriminate].
    injection H as <-. inversion Hprint as [| r' rs' Hr Hrs]; subst.
    unfold bind at 1. rewrite <- Hn, (schedule_one_returns n r tasks Hn Hr).
    rewrite (IH rs (tasks ++ [r]) eq_refl Hrs Hbad).
    now rewrite <- app_assoc.
Qed.

Lemma schedule_loop_extends (items : list value) (tasks : BackgroundTasks) :
  exists r added, for_each items schedule_one tasks = (r, tasks ++ added).
Proof.
  revert tasks. induction items as [| n items IH]; simpl; intros tasks.
  - exists (Ok tt), []. now rewrite app_nil_r.
  - unfold bind at 1.
    destruct (dict_get n "resource" (VStr "")) as [r | e] eqn:Hn.
    + destruct (print r) as [[] | e] eqn:Hr.
      * rewrite <- Hn, (schedule_one_returns n r tasks Hn Hr).
        destruct (IH (tasks ++ [r])) as (r' & added & ->).
        exists r', (r :: added). now rewrite <- app_assoc.
      * rewrite <- Hn, (schedule_one_raises n e tasks); [| right; now exists r].
        exists (Raise e), []. now rewrite app_nil_r.
    + rewrite <- Hn, (schedule_one_raises n e tasks); [| now left].
      exists (Raise e), []. now rewrite app_nil_r.
Qed.

(** The two answers to a POST without validation token. *)
Lemma post_answers (request : Request) (tasks : BackgroundTasks) :
  method request = "POST" ->
  str_truthy (query_get "validationToken" (query_params request)) = false ->
  (exists added payload,
     handle_graph_webhook request tasks = (Ok accepted, tasks ++ added) /\
     json request = JSON payload) \/
  (exists added, handle_graph_webhook request tasks = (Ok invalid, tasks ++ added)).
Proof.
  intros Hm Hq. unfold handle_graph_webhook. rewrite Hq, Hm, String.eqb_refl.
  set (one := fun notification : value =>
              bind (lift (dict_get notification "resource" (VStr ""))) _).
  cbv [try_except request_json bind ret lift raise]. rewrite print_banner.
  destruct (json request) as [| payload | e].
  - right. exists []. rewrite app_nil_r. reflexivity.
  - destruct (print payload) as [[] | e].
    2:{ right. exists []. rewrite app_nil_r. reflexivity. }
    destruct (dict_get payload "value" (VList [])) as [notifications | e].
    2:{ right. exists []. rewrite app_nil_r. reflexivity. }
    destruct (py_iter notifications) as [items | e].
    2:{ right. exists []. rewrite app_nil_r. reflexivity. }
    subst one. destruct (schedule_loop_extends items tasks) as (r & added & ->).
    destruct r as [[] | e].
    + left. exists added, payload. split; reflexivity.
    + right. exists added. reflexivity.
  - right. exists []. rewrite app_nil_r. reflexivity.
Qed.

Lemma other_method_405 (request : Request) (tasks : BackgroundTasks) :
  method request <> "POST" ->
  str_truthy (query_get "validationToken" (query_params request)) = false ->
  handle_graph_webhook request tasks = (Ok (PlainTextResponse None 405), tasks).
Proof.
  intros Hm Hq. unfold handle_graph_webhook. rewrite Hq.
  destruct (String.eqb_spec (method request) "POST"); [contradiction | reflexivity].
Qed.

Lemma truthy_token (q : option string) :
  str_truthy q = true -> exists token, q = Some token /\ token <> "".
Proof.
  destruct q as [token |]; simpl; [| discriminate].
  destruct (String.eqb_spec token ""); [discriminate |]. intros _. now exists token.
Qed.

(** X1: the handler never raises: whatever the request, it returns a
    response whose status is 200, 202, 400 or 405, and the tasks
    scheduled before are still scheduled, in their order, before any new
    one. *)
Theorem handler_always_answers (request : Request) (tasks : BackgroundTasks) :
  exists response added,
    handle_graph_webhook request tasks = (Ok response, tasks ++ added) /\
    In (status response) [200; 202; 400; 405]%Z.
Proof.
  destruct (str_truthy (query_get "validationToken" (query_params request))) eqn:Hq.
  - destruct (truthy_token _ Hq) as (token & Hget & Hne).
    exists (PlainTextResponse (Some token) 200), [].
    rewrite app_nil_r, (token_is_echoed request token tasks Hget Hne).
    split; [reflexivity | simpl; auto].
  - destruct (String.eqb_spec (method request) "POST") as [Hm | Hm].
    + destruct (post_answers request tasks Hm Hq) as [(added & _ & -> & _) | (added & ->)].
      * exists accepted, added. split; [reflexivity | simpl; auto].
      * exists invalid, added. split; [reflexivity | simpl; auto].
    + exists (PlainTextResponse None 405), [].
      rewrite app_nil_r, (other_method_405 request tasks Hm Hq).
      split; [reflexivity | simpl; auto].
Qed.

(** X2: a POST without validation token whose body decodes to an object
    is accepted with status 202 when every element of its ["value"] has a
    [get] and every resource is printed (none is a text with a
    surrogate), and one task per notification is scheduled, in the order
    of the batch, for its ["resource"] (the empty string when it has
    none); an object without ["value"] is an empty batch. *)
Theorem batch_schedules_each_resource (request : Request) (tasks : BackgroundTasks)
    (payload notifications : value) (items resources : list value) :
  method request = "POST" ->
  str_truthy (query_get "validationToken" (query_params request)) = false ->
  json request = JSON payload ->
  dict_get payload "value" (VList []) = Ok notifications ->
  py_iter notifications = Ok items ->
  map_res resource_of items = Ok resources ->
  Forall (fun resource => print resource = Ok tt) resources ->
  handle_graph_webhook request tasks = (Ok accepted, tasks ++ resources).
Proof.
  intros Hm Hq Hj Hvalue Hiter Hres Hprint. unfold handle_graph_webhook.
  rewrite Hq, Hm, String.eqb_refl.
  set (one := fun notification : value =>
              bind (lift (dict_get notification "resource" (VStr ""))) _).
  cbv [try_except request_json bind ret lift raise].
  rewrite Hj, print_banner, (print_object payload _ _ _ Hvalue), Hvalue, Hiter. subst one.
  rewrite (schedule_loop_returns items resources tasks Hres Hprint). reflexivity.
Qed.

(** X3: when an element of the batch has no [get], or its resource is a
    text that cannot be printed, the POST is answered with status 400,
    but the tasks of the notifications before it, whose resources were
    printed, have been scheduled and stay scheduled; none is scheduled
    for the element itself or for those after it. *)
Theorem broken_batch_keeps_earlier_tasks (request : Request) (tasks : BackgroundTasks)
    (payload notifications bad : value) (good rest resources : list value) (e : exn) :
  method request = "POST" ->
  str_truthy (query_get "validationToken" (query_params request)) = false ->
  json request = JSON payload ->
  dict_get payload "value" (VList []) = Ok notifications ->
  py_iter notifications = Ok (good ++ bad :: rest) ->
  map_res resource_of good = Ok resources ->
  Forall (fun resource => print resource = Ok tt) resources ->
  dict_get bad "resource" (VStr "") = Raise e \/
    (exists r, dict_get bad "resource" (VStr "") = Ok r /\ print r = Raise e) ->
  handle_graph_webhook request tasks = (Ok invalid, tasks ++ resources).
Proof.
  intros Hm Hq Hj Hvalue Hiter Hres Hprint Hbad. unfold handle_graph_webhook.
  rewrite Hq, Hm, String.eqb_refl.
  set (one := fun notification : value =>
              bind (lift (dict_get notification "resource" (VStr ""))) _).
  cbv [try_except request_json bind ret lift raise].
  rewrite Hj, print_banner, (print_object payload _ _ _ Hvalue), Hvalue, Hiter. subst one.
  rewrite (schedule_loop_raises good rest resources bad e tasks Hres Hprint Hbad).
  reflexivity.
Qed.

(** X4: what a status tells: 200 is only given as the echo of a
    validation token that is not blank, with no task scheduled; 202 only
    to a POST without such a token whose body decodes as JSON; 405 only
    to a request that is not a POST, with no task scheduled. *)
Theorem status_tells_the_branch (request : Request) (tasks tasks' : BackgroundTasks)
    (response : Response) :
  handle_graph_webhook request tasks = (Ok response, tasks') ->
  (status response = 200%Z ->
     exists token,
       query_get "validationToken" (query_params request) = Some token /\
       token <> "" /\ response = PlainTextResponse (Some token) 200 /\ tasks' = tasks) /\
  (status response = 202%Z ->
     method request = "POST" /\
     str_truthy (query_get "validationToken" (query_params request)) = false /\
     exists payload, json request = JSON payload) /\
  (status response = 405%Z ->
     method request <> "POST" /\ tasks' = tasks).
Proof.
  intros H.
  destruct (str_truthy (query_get "validationToken" (query_params request))) eqn:Hq.
  - destruct (truthy_token _ Hq) as (token & Hget & Hne).
    rewrite (token_is_echoed request token tasks Hget Hne) in H. injection H as <- <-.
    simpl. repeat split; try discriminate. exists token. auto.
  - destruct (String.eqb_spec (method request) "POST") as [Hm | Hm].
    + destruct (post_answers request tasks Hm Hq)
        as [(added & payload & Hrun & Hj) | (added & Hrun)];
        rewrite Hrun in H; injection H as <- <-; simpl;
        repeat split; try discriminate; auto.
      now exists payload.
    + rewrite (other_method_405 request tasks Hm Hq) in H. injection H as <- <-.
      simpl. repeat split; try discriminate; auto.
Qed.

End GatewayBatches.

(** ** The ingestion pipeline: fields, files and failures *)

Lemma assoc_set_key_other {A : Type} (k k' : string) (v : A) (kv : list (string * A)) :
  k' <> k -> assoc k' (set_key k v kv) = assoc k' kv.
Proof.
  intros Hne. induction kv as [| [k0 v0] kv IH]; simpl.
  - destruct (String.eqb_spec k' k); [contradiction | reflexivity].
  - destruct (String.eqb_spec k k0) as [-> | Hk]; simpl.
    + destruct (String.eqb_spec k' k0); [contradiction | reflexivity].
    + destruct (String.eqb_spec k' k0); [reflexivity | exact IH].
Qed.

Lemma assoc_remove_key {A : Type} (k : string) (kv : list (string * A)) :
  assoc k (remove_key k kv) = None.
Proof.
  induction kv as [| [k0 v0] kv IH]; simpl; [reflexivity |].
  destruct (String.eqb k k0) eqn:E; [exact IH |]. simpl. now rewrite E.
Qed.

Lemma assoc_remove_key_other {A : Type} (k k' : string) (kv : list (string * A)) :
  k' <> k -> assoc k' (remove_key k kv) = assoc k' kv.
Proof.
  intros Hne. induction kv as [| [k0 v0] kv IH]; simpl; [reflexivity |].
  destruct (String.eqb_spec k k0) as [-> | Hk]; simpl.
  - destruct (String.eqb_spec k' k0); [contradiction | exact IH].
  - destruct (String.eqb_spec k' k0); [reflexivity | exact IH].
Qed.

(** *** Whitespace *)

(** [lstrip] leaves nothing exactly of the texts made of whitespace, and
    what it leaves does not begin with whitespace. *)
Lemma lstrip_spec (n : nat) (s : string) :
  (String.length s <= n)%nat ->
  (lstrip s = "" <-> all_space s = true) /\ starts_space (lstrip s) = false.
Proof.
  revert s. induction n as [| n IH]; intros s Hlen.
  - destruct s; [| simpl in Hlen; lia]. simpl. split; [tauto | reflexivity].
  - destruct s as [| c1 r1]; [simpl; split; [tauto | reflexivity] |].
    simpl in Hlen. simpl lstrip. simpl all_space.
    destruct (is_space c1) eqn:E1; [apply IH; lia |].
    destruct r1 as [| c2 r2].
    { simpl. rewrite E1. split; [split; discriminate | reflexivity]. }
    simpl in Hlen.
    destruct (is_space2 c1 c2) eqn:E2; [apply IH; lia |].
    destruct r2 as [| c3 r3].
    { simpl. rewrite E1, E2. split; [split; discriminate | reflexivity]. }
    simpl in Hlen.
    destruct (is_space3 c1 c2 c3) eqn:E3; [apply IH; lia |].
    simpl. rewrite E1, E2, E3. split; [split; discriminate | reflexivity].
Qed.

(** What [rstrip] keeps is the start of the text. *)
Lemma rstrip_prefix (s : string) : exists t, s = (rstrip s ++ t)%string.
Proof.
  induction s as [| c rest [t IH]]; [now exists "" |].
  simpl. destruct (rstrip rest) as [| c2 [| c3 [| c4 r]]] eqn:E.
  - destruct (is_space c); [now exists (String c rest) |].
    exists t. simpl. now rewrite IH at 1.
  - destruct (is_space2 c c2); [now exists (String c rest) |].
    exists t. simpl. now rewrite IH at 1.
  - destruct (is_space3 c c2 c3); [now exists (String c rest) |].
    exists t. simpl. now rewrite IH at 1.
  - exists t. simpl. now rewrite IH at 1.
Qed.

(** [rstrip] leaves nothing only of a text that begins with whitespace. *)
Lemma rstrip_empty (s : string) : rstrip s = "" -> s = "" \/ starts_space s = true.
Proof.
  intros Hempty. destruct s as [| c rest]; [now left |]. right. revert Hempty.
  simpl rstrip. destruct (rstrip_prefix rest) as [t Hrest].
  destruct (rstrip rest) as [| c2 [| c3 [| c4 r]]].
  - destruct (is_space c) eqn:E; [| discriminate]. intros _. simpl. now rewrite E.
  - destruct (is_space2 c c2) eqn:E; [| discriminate]. intros _.
    rewrite Hrest. simpl. rewrite E. apply orb_true_r.
  - destruct (is_space3 c c2 c3) eqn:E; [| discriminate]. intros _.
    rewrite Hrest. simpl. rewrite E. now rewrite !orb_true_r.
  - discriminate.
Qed.

(** [strip] gives the empty text exactly on the texts made of
    whitespace. *)
Lemma strip_empty_iff (s : string) : strip s = "" <-> all_space s = true.
Proof.
  destruct (lstrip_spec (String.length s) s (le_n _)) as [Hiff Hstart].
  unfold strip. split.
  - intros H. apply Hiff. destruct (rstrip_empty _ H) as [H0 | H1]; [exact H0 |].
    congruence.
  - intros H. apply Hiff in H. now rewrite H.
Qed.

Section IngestionFiles.

Import Ingestion.

Variable py_str : value -> string.
Variable get_text : value -> res string.
Variable chunk_text : string -> res (list value).
Variable embed : list value -> res (list value).
Variable refused : string -> option exn.

Local Abbreviation message_fields := (message_fields get_text).
Local Abbreviation process_and_store_email :=
  (process_and_store_email py_str get_text chunk_text embed refused).
Local Abbreviation ingest_all := (ingest_all py_str get_text chunk_text embed refused).
Local Abbreviation temp_file_path := (temp_file_path py_str).
Local Abbreviation text_stored := (text_stored py_str refused).
Local Abbreviation storing_text := (storing_text py_str).
Local Abbreviation skipping_text := (skipping_text py_str).

Ltac rbind_ok H :=
  repeat match type of H with
  | rbind ?r _ = Ok _ =>
      let E := fresh "E" in
      destruct r eqn:E; simpl in H; [| discriminate H]
  end.

(** *** The metadata step and the other files *)

Lemma load_metadata_keeps {V : Type} (proj : Storage -> V) : keeps proj load_metadata.
Proof.
  intros st. unfold load_metadata. destruct (metadata_file st) as [[| v | e] |]; reflexivity.
Qed.

Lemma append_metadata_keeps {V : Type} (proj : Storage -> V) (uid entry : value) :
  (forall b st, proj (set_lock_file b st) = proj st) ->
  (forall m st, proj (set_metadata_file m st) = proj st) ->
  keeps proj (append_metadata uid entry).
Proof.
  intros Hlock Hfile. unfold append_metadata.
  apply keeps_bind; [apply keeps_modify; intros st; apply Hlock | intros _].
  apply keeps_bind; [apply load_metadata_keeps | intros metadata_list].
  apply keeps_bind; [apply keeps_lift | intros ms].
  apply keeps_bind; [apply keeps_lift | intros found].
  apply keeps_if; [| apply keeps_ret].
  apply keeps_bind; [apply keeps_lift | intros metadata_list'].
  apply keeps_modify. intros st. apply Hfile.
Qed.

Lemma append_metadata_keeps_run {V : Type} (proj : Storage -> V) (uid entry : value)
    (st st' : Storage) (r : res unit) :
  (forall b st, proj (set_lock_file b st) = proj st) ->
  (forall m st, proj (set_metadata_file m st) = proj st) ->
  append_metadata uid entry st = (r, st') -> proj st' = proj st.
Proof.
  intros Hlock Hfile Hrun.
  pose proof (append_metadata_keeps proj uid entry Hlock Hfile st) as H.
  now rewrite Hrun in H.
Qed.

(** When the metadata step raises it has written nothing but the lock
    file. *)
Lemma append_metadata_raises (uid entry : value) (st st' : Storage) (e : exn) :
  append_metadata uid entry st = (Raise e, st') -> st' = set_lock_file true st.
Proof.
  unfold append_metadata, bind, modify, load_metadata, lift. simpl.
  destruct (metadata_file st) as [[| v | e0] |]; simpl; try discriminate.
  2:{ intros H. now injection H. }
  destruct v as [| b | n | s | l | kv]; simpl.
  - intros H. now injection H.
  - intros H. now injection H.
  - intros H. now injection H.
  - destruct (any_email_id uid (chars s)) as [[|] | e']; simpl; intros H;
      try discriminate; now injection H.
  - destruct (any_email_id uid l) as [[|] | e']; simpl; intros H;
      try discriminate; now injection H.
  - destruct (any_email_id uid (map (fun p => VStr (fst p)) kv)) as [[|] | e'];
      simpl; intros H; try discriminate; now injection H.
Qed.

(** How an ingestion with a body that is not blank and a text that is
    stored ends: it raises with only the directory and the temporary
    file written; or it has appended to the index and then either raises
    in the metadata step, or runs that step and removes the temporary
    file. *)
Lemma process_outcome (email_data : value) (clock : Clock) (st : Storage) (f : Fields) :
  message_fields email_data = Ok f ->
  strip (plain_body f) <> "" ->
  text_stored f clock ->
  let path := temp_file_path (uid f) (utcnow_strftime clock) in
  let st0 :=
    set_temp_files (set_key path (plain_body f) (temp_files st)) (set_base_dir true st) in
  (exists e, process_and_store_email email_data clock st = (Raise e, st0)) \/
  (exists chunks chunks' entries,
     chunk_text (plain_body f) = Ok chunks /\
     map_res (enrich f (utcnow_strftime clock)) chunks = Ok chunks' /\
     embed chunks' = Ok entries /\
     let st1 :=
       set_index_file
         (Some (match index_file st with Some old => old | None => [] end ++ entries))
         st0 in
     ((exists e,
         process_and_store_email email_data clock st = (Raise e, set_lock_file true st1)) \/
      (exists st2,
         append_metadata (uid f)
           (metadata_entry f (utcnow_strftime clock) (List.length chunks')
              (utcnow_isoformat clock)) st1 = (Ok tt, st2) /\
         process_and_store_email email_data clock st =
           (Ok tt, set_temp_files (remove_key path (temp_files st2)) st2)))).
Proof.
  intros Hf Hbody Hstored path st0.
  rewrite (process_unfold py_str get_text chunk_text embed refused email_data clock st f
             Hf Hbody Hstored).
  cbv zeta. fold path. fold st0.
  destruct (chunk_text (plain_body f)) as [chunks | e] eqn:Hchunk; [| left; now exists e].
  destruct (map_res (enrich f (utcnow_strftime clock)) chunks) as [chunks' | e] eqn:Henrich;
    [| left; now exists e].
  destruct (embed chunks') as [entries | e] eqn:Hembed; [| left; now exists e].
  right. exists chunks, chunks', entries.
  split; [reflexivity | split; [exact Henrich | split; [exact Hembed |]]]. cbv zeta.
  set (st1 := set_index_file _ st0).
  set (entry := metadata_entry f _ _ _).
  unfold bind.
  destruct (append_metadata (uid f) entry st1) as [[[] | e] st2] eqn:Happend.
  - right. exists st2. split; [reflexivity |].
    pose proof (append_metadata_keeps temp_files (uid f) entry
                  (fun _ _ => eq_refl) (fun _ _ => eq_refl) st1) as Htemp.
    rewrite Happend in Htemp. simpl in Htemp.
    unfold remove. rewrite Htemp, (assoc_set_key path (plain_body f) (temp_files st)).
    reflexivity.
  - left. exists e. apply append_metadata_raises in Happend. now subst st2.
Qed.

(** Whatever follows the making of the directory leaves it there. *)
Lemma process_keeps_directory (email_data : value) (clock : Clock) (st : Storage)
    (f : Fields) :
  message_fields email_data = Ok f ->
  strip (plain_body f) <> "" ->
  print (storing_text f) = Ok tt ->
  refused base_path = None ->
  base_dir (snd (process_and_store_email email_data clock st)) = true.
Proof.
  intros Hf Hbody Hprint Hbase.
  destruct (process_start py_str get_text chunk_text embed refused email_data clock st f
              Hf Hbody)
    as [(e & He & _) | [(e & _ & He & _) | [(e & _ & _ & _ & ->)
        | [(_ & _ & _ & _ & ->) | Hstored]]]];
    try congruence; try reflexivity.
  destruct (process_outcome email_data clock st f Hf Hbody Hstored)
    as [(e & ->) | (chunks & chunks' & entries & _ & _ & _ & [(e & ->) | (st2 & Happend & ->)])];
    try reflexivity.
  simpl.
  exact (append_metadata_keeps_run base_dir _ _ _ _ _
           (fun _ _ => eq_refl) (fun _ _ => eq_refl) Happend).
Qed.

(** X5: the guard on the body lets through exactly the bodies with a
    character that is not whitespace, whatever the script of the
    whitespace.  A message whose plain text is all whitespace is skipped
    with every file as it was, and the call ends as the [print] of line
    106 does.  For any other message the storage directory is there
    afterwards, however the ingestion ends, unless the [print] of line
    109 raises or the file system refuses the directory: then every file
    is as it was. *)
Theorem only_whitespace_bodies_are_skipped (email_data : value) (clock : Clock)
    (st : Storage) (f : Fields) :
  message_fields email_data = Ok f ->
  (all_space (plain_body f) = true ->
     process_and_store_email email_data clock st = (print (skipping_text f), st)) /\
  (all_space (plain_body f) = false ->
     match print (storing_text f), refused base_path with
     | Ok _, None => base_dir (snd (process_and_store_email email_data clock st)) = true
     | Ok _, Some e => process_and_store_email email_data clock st = (Raise e, st)
     | Raise e, _ => process_and_store_email email_data clock st = (Raise e, st)
     end).
Proof.
  intros Hf. split; intros Hspace.
  - apply strip_empty_iff in Hspace.
    exact (process_skips py_str get_text chunk_text embed refused email_data clock st f
             Hf Hspace).
  - assert (Hbody : strip (plain_body f) <> "").
    { intros H. apply strip_empty_iff in H. congruence. }
    pose proof (process_start py_str get_text chunk_text embed refused email_data clock
                  st f Hf Hbody) as Hstart.
    destruct (print (storing_text f)) as [[] | e] eqn:Hprint.
    + destruct (refused base_path) as [e |] eqn:Hbase.
      * destruct Hstart
          as [(e' & He & _) | [(e' & _ & He & Hrun) | [(e' & _ & He & _)
              | [(_ & He & _) | (_ & He & _)]]]];
          congruence.
      * now apply (process_keeps_directory email_data clock st f).
    + destruct Hstart
        as [(e' & He & Hrun) | [(e' & He & _) | [(e' & He & _)
            | [(He & _) | (He & _)]]]];
        congruence.
Qed.

(** X6: fields absent from the message take the defaults of the code:
    no id, ["No Subject"], ["unknown"] and ["Unknown"] for the sender, no
    cc address, no attachment, and the empty markup for the body. *)
Theorem absent_fields_take_defaults (items : list (string * value)) (f : Fields) :
  message_fields (VDict items) = Ok f ->
  (assoc "id" items = None -> uid f = VNone) /\
  (assoc "subject" items = None -> subject f = VStr "No Subject") /\
  (assoc "from" items = None ->
     sender f = VStr "unknown" /\ sender_name f = VStr "Unknown") /\
  (assoc "sentDateTime" items = None -> sent_time f = VStr "unknown") /\
  (assoc "ccRecipients" items = None -> cc_list f = []) /\
  (assoc "hasAttachments" items = None -> has_attachments f = VBool false) /\
  (assoc "body" items = None -> get_text (VStr "") = Ok (plain_body f)).
Proof.
  unfold Ingestion.message_fields. intros H. rbind_ok H. injection H as <-. simpl.
  unfold dict_get in *.
  repeat match goal with |- _ /\ _ => split end;
    intros Hnone; rewrite Hnone in *;
    repeat (simpl in *;
            match goal with
            | E : Ok _ = Ok _ |- _ => injection E as <-
            end);
    try reflexivity; try assumption.
  split; reflexivity.
Qed.

(** X7: a message whose ["from"] is present but is not an object (null,
    for one) makes the ingestion raise [AttributeError] before the body
    is looked at; no file is touched. *)
Theorem sender_not_an_object_raises (items : list (string * value)) (from : value)
    (clock : Clock) (st : Storage) :
  assoc "from" items = Some from ->
  (forall kv, from <> VDict kv) ->
  process_and_store_email (VDict items) clock st = (Raise AttributeError, st).
Proof.
  intros Hfrom Hnot.
  unfold Ingestion.process_and_store_email, bind, lift, Ingestion.message_fields.
  simpl. rewrite Hfrom. simpl.
  destruct from as [| b | n | s | l | kv]; try reflexivity.
  now destruct (Hnot kv).
Qed.

(** X8: when the ingestion returns, its temporary file is gone and every
    other temporary file is as it was. *)
Theorem returned_ingestion_leaves_no_temp_file (email_data : value) (clock : Clock)
    (st : Storage) (f : Fields) :
  message_fields email_data = Ok f ->
  strip (plain_body f) <> "" ->
  fst (process_and_store_email email_data clock st) = Ok tt ->
  let path := temp_file_path (uid f) (utcnow_strftime clock) in
  let after := temp_files (snd (process_and_store_email email_data clock st)) in
  assoc path after = None /\
  (forall other, other <> path -> assoc other after = assoc other (temp_files st)).
Proof.
  intros Hf Hbody Hok path after. subst after.
  assert (Hstored : text_stored f clock).
  { destruct (process_start py_str get_text chunk_text embed refused email_data clock st f
                Hf Hbody)
      as [(e & _ & Hrun) | [(e & _ & _ & Hrun) | [(e & _ & _ & _ & Hrun)
          | [(_ & _ & _ & _ & Hrun) | H]]]];
      try exact H; rewrite Hrun in Hok; discriminate. }
  destruct (process_outcome email_data clock st f Hf Hbody Hstored)
    as [(e & Hrun) | (chunks & chunks' & entries & _ & _ & _ & [(e & Hrun) | (st2 & Happend & Hrun)])];
    rewrite Hrun in *; try discriminate.
  pose proof (append_metadata_keeps_run temp_files _ _ _ _ _
                (fun _ _ => eq_refl) (fun _ _ => eq_refl) Happend) as Htemp.
  simpl in Htemp. simpl. fold path in Htemp. rewrite Htemp.
  fold path. split.
  - apply assoc_remove_key.
  - intros other Hother. rewrite assoc_remove_key_other by assumption.
    now apply assoc_set_key_other.
Qed.

(** X9: when the ingestion raises after the text has been stored,
    wherever it does (chunking, enriching, embedding or the metadata
    step), the temporary file stays behind with the plain text, and the
    metadata file is as it was. *)
Theorem raised_ingestion_leaves_temp_file (email_data : value) (clock : Clock)
    (st : Storage) (f : Fields) (e : exn) :
  message_fields email_data = Ok f ->
  strip (plain_body f) <> "" ->
  text_stored f clock ->
  fst (process_and_store_email email_data clock st) = Raise e ->
  let path := temp_file_path (uid f) (utcnow_strftime clock) in
  let st' := snd (process_and_store_email email_data clock st) in
  assoc path (temp_files st') = Some (plain_body f) /\
  metadata_file st' = metadata_file st.
Proof.
  intros Hf Hbody Hstored Hraise path st'. subst st'.
  destruct (process_outcome email_data clock st f Hf Hbody Hstored)
    as [(e' & Hrun) | (chunks & chunks' & entries & _ & _ & _ & [(e' & Hrun) | (st2 & Happend & Hrun)])];
    rewrite Hrun in *; try discriminate; simpl; fold path;
    (split; [apply assoc_set_key | reflexivity]).
Qed.

(** X10: the index is extended before the metadata file is looked at:
    once the text is stored and chunking, enriching and embedding have
    returned, the entries are at the end of the index file, also when
    the metadata file already has a record of the id and also when the
    metadata step raises. *)
Theorem index_is_extended_regardless (email_data : value) (clock : Clock)
    (st : Storage) (f : Fields) (chunks chunks' entries : list value) :
  message_fields email_data = Ok f ->
  strip (plain_body f) <> "" ->
  text_stored f clock ->
  chunk_text (plain_body f) = Ok chunks ->
  map_res (enrich f (utcnow_strftime clock)) chunks = Ok chunks' ->
  embed chunks' = Ok entries ->
  index_file (snd (process_and_store_email email_data clock st)) =
    Some (match index_file st with Some old => old | None => [] end ++ entries).
Proof.
  intros Hf Hbody Hstored Hchunk Henrich Hembed.
  rewrite (process_unfold py_str get_text chunk_text embed refused email_data clock st f
             Hf Hbody Hstored).
  cbv zeta. rewrite Hchunk, Henrich, Hembed. unfold bind.
  match goal with
  | |- context [append_metadata ?u ?entry ?s] =>
      destruct (append_metadata u entry s) as [[[] | e] st2] eqn:Happend
  end;
    pose proof (append_metadata_keeps_run index_file _ _ _ _ _
                  (fun _ _ => eq_refl) (fun _ _ => eq_refl) Happend) as Hindex;
    simpl in Hindex.
  - unfold remove. destruct (assoc _ (temp_files st2)); simpl; exact Hindex.
  - simpl. exact Hindex.
Qed.

(** *** Chunks *)

Lemma map_res_raises {A B : Type} (g : A -> res B) (good rest : list A) (bad : A)
    (done : list B) (e : exn) :
  map_res g good = Ok done -> g bad = Raise e ->
  map_res g (good ++ bad :: rest) = Raise e.
Proof.
  revert done. induction good as [| x good IH]; simpl; intros done Hgood Hbad.
  - now rewrite Hbad.
  - unfold rbind in *. destruct (g x); [| discriminate].
    destruct (map_res g good) as [ys |] eqn:Hys; [| discriminate].
    now rewrite (IH ys eq_refl Hbad).
Qed.

(** X11: enriching a chunk sets the seven message-level keys of its
    metadata and leaves every other key of the metadata, and every other
    key of the chunk, as it was. *)
Theorem enrich_sets_message_keys (f : Fields) (timestamp : string)
    (items metadata : list (string * value)) :
  assoc "metadata" items = Some (VDict metadata) ->
  exists chunk' metadata',
    enrich f timestamp (VDict items) = Ok chunk' /\
    dict_item chunk' "metadata" = Ok (VDict metadata') /\
    (assoc "email_id" metadata' = Some (uid f) /\
     assoc "subject" metadata' = Some (subject f) /\
     assoc "sender" metadata' = Some (sender f) /\
     assoc "sender_name" metadata' = Some (sender_name f) /\
     assoc "timestamp" metadata' = Some (VStr timestamp) /\
     assoc "cc" metadata' = Some (VList (cc_list f)) /\
     assoc "hasAttachments" metadata' = Some (has_attachments f)) /\
    (forall k,
       ~ In k ["email_id"; "subject"; "sender"; "sender_name"; "timestamp"; "cc";
               "hasAttachments"] ->
       assoc k metadata' = assoc k metadata) /\
    (forall k default,
       k <> "metadata" -> dict_get chunk' k default = dict_get (VDict items) k default).
Proof.
  intros Hmeta. unfold enrich, dict_item, dict_update, rbind. rewrite Hmeta. simpl fold_left.
  eexists. eexists. split; [reflexivity |]. split; [| split; [| split]].
  - simpl. now rewrite assoc_set_key.
  - repeat split;
      rewrite ?assoc_set_key_other by discriminate; apply assoc_set_key.
  - intros k Hk. simpl in Hk.
    rewrite !assoc_set_key_other; [reflexivity | intros -> ..]; apply Hk; auto 10.
  - intros k default Hk. simpl. now rewrite assoc_set_key_other.
Qed.

(** X12: once the text is stored, a chunk without ["metadata"] makes the
    ingestion raise [KeyError] when the chunks before it have been
    enriched: the directory and the temporary file have been written,
    the index and the metadata file are as they were. *)
Theorem chunk_without_metadata_raises (email_data : value) (clock : Clock)
    (st : Storage) (f : Fields) (good rest done : list value)
    (items : list (string * value)) :
  message_fields email_data = Ok f ->
  strip (plain_body f) <> "" ->
  text_stored f clock ->
  chunk_text (plain_body f) = Ok (good ++ VDict items :: rest) ->
  map_res (enrich f (utcnow_strftime clock)) good = Ok done ->
  assoc "metadata" items = None ->
  fst (process_and_store_email email_data clock st) = Raise KeyError /\
  index_file (snd (process_and_store_email email_data clock st)) = index_file st /\
  metadata_file (snd (process_and_store_email email_data clock st)) = metadata_file st.
Proof.
  intros Hf Hbody Hstored Hchunk Hgood Hmeta.
  rewrite (process_unfold py_str get_text chunk_text embed refused email_data clock st f
             Hf Hbody Hstored).
  cbv zeta. rewrite Hchunk.
  rewrite (map_res_raises _ good rest (VDict items) done KeyError Hgood).
  - repeat split.
  - unfold enrich, dict_item, rbind. now rewrite Hmeta.
Qed.

(** *** The metadata file *)

Lemma append_metadata_fresh (u entry : value) (st : Storage) (l : list value) :
  load_metadata st = (Ok (VList l), st) ->
  any_email_id u l = Ok false ->
  append_metadata u entry st =
    (Ok tt, set_metadata_file (Some (JSON (VList (l ++ [entry])))) (set_lock_file true st)).
Proof.
  unfold append_metadata, bind, modify, load_metadata, lift. simpl.
  destruct (metadata_file st) as [[| v | e] |]; intros Hload Hany;
    try discriminate;
    injection Hload as Hl; subst; simpl; rewrite ?Hany; reflexivity.
Qed.

(** X13: an ingestion that reaches the metadata step (the text is
    stored and chunking, enriching and embedding return) with an id that
    no record has, and a metadata file that is absent, or is not JSON, or
    is a JSON list, puts its record at the end of the list: the file
    holds the records it held, then the new one, whose [chunk_count] is
    the number of chunks; the ingestion returns. *)
Theorem fresh_id_is_appended_last (email_data : value) (clock : Clock)
    (st : Storage) (f : Fields) (chunks chunks' entries l : list value) :
  message_fields email_data = Ok f ->
  strip (plain_body f) <> "" ->
  text_stored f clock ->
  chunk_text (plain_body f) = Ok chunks ->
  map_res (enrich f (utcnow_strftime clock)) chunks = Ok chunks' ->
  embed chunks' = Ok entries ->
  load_metadata st = (Ok (VList l), st) ->
  any_email_id (uid f) l = Ok false ->
  exists entry,
    fst (process_and_store_email email_data clock st) = Ok tt /\
    metadata_file (snd (process_and_store_email email_data clock st)) =
      Some (JSON (VList (l ++ [entry]))) /\
    dict_get entry "email_id" VNone = Ok (uid f) /\
    dict_get entry "chunk_count" VNone = Ok (VInt (Z.of_nat (List.length chunks'))) /\
    dict_get entry "index_path" VNone = Ok (VStr "vector_stores/email_data/index_email.faiss").
Proof.
  intros Hf Hbody Hstored Hchunk Henrich Hembed Hload Hany.
  exists (metadata_entry f (utcnow_strftime clock) (List.length chunks')
            (utcnow_isoformat clock)).
  rewrite (process_unfold py_str get_text chunk_text embed refused email_data clock st f
             Hf Hbody Hstored).
  cbv zeta. rewrite Hchunk, Henrich, Hembed. unfold bind.
  rewrite (append_metadata_fresh _ _ _ l).
  - unfold remove. simpl temp_files.
    rewrite (assoc_set_key _ (plain_body f) (temp_files st)). repeat split.
  - unfold load_metadata in *. simpl metadata_file.
    destruct (metadata_file st) as [[| v | e] |]; try discriminate;
      injection Hload as Hl; subst; reflexivity.
  - exact Hany.
Qed.

Lemma any_email_id_stops (u m : value) (before after : list value) :
  any_email_id u before = Ok false ->
  has_email_id u m = true ->
  any_email_id u (before ++ m :: after) = Ok true.
Proof.
  induction before as [| x before IH]; simpl; intros Hbefore Hm.
  - unfold has_email_id in Hm. destruct (dict_get m "email_id" VNone); [| discriminate].
    simpl. now rewrite Hm.
  - destruct (dict_get x "email_id" VNone) as [v |]; simpl in *; [| discriminate].
    destruct (py_eq v u); [discriminate | auto].
Qed.

Lemma any_email_id_breaks (u bad : value) (before after : list value) (e : exn) :
  any_email_id u before = Ok false ->
  dict_get bad "email_id" VNone = Raise e ->
  any_email_id u (before ++ bad :: after) = Raise e.
Proof.
  induction before as [| x before IH]; simpl; intros Hbefore Hbad.
  - now rewrite Hbad.
  - destruct (dict_get x "email_id" VNone) as [v |]; simpl in *; [| discriminate].
    destruct (py_eq v u); [discriminate | auto].
Qed.

(** X14: the search for the id reads the records in order and stops at
    the first match.  What follows a match is not looked at: the step
    returns and leaves the file alone whatever the later elements are.
    An element that is not an object before any match makes the step
    raise, with the file as it was. *)
Theorem search_stops_at_first_match (u entry : value) (st : Storage)
    (before after : list value) (x : value) :
  metadata_file st = Some (JSON (VList (before ++ x :: after))) ->
  any_email_id u before = Ok false ->
  (has_email_id u x = true ->
     append_metadata u entry st = (Ok tt, set_lock_file true st)) /\
  (forall e, dict_get x "email_id" VNone = Raise e ->
     append_metadata u entry st = (Raise e, set_lock_file true st)).
Proof.
  intros Hfile Hbefore. split.
  - intros Hx. unfold append_metadata, bind, modify, load_metadata, lift. simpl.
    rewrite Hfile. simpl. now rewrite (any_email_id_stops u x before after Hbefore Hx).
  - intros e Hx. unfold append_metadata, bind, modify, load_metadata, lift. simpl.
    rewrite Hfile. simpl. now rewrite (any_email_id_breaks u x before after e Hbefore Hx).
Qed.

(** X15: a metadata file that decodes, but not to a list, stops every
    ingestion that reaches the metadata step (the text is stored and
    chunking, enriching and embedding return): the step raises
    [TypeError] or [AttributeError] and the file stays as it is. *)
Theorem metadata_not_a_list_raises (email_data : value) (clock : Clock)
    (st : Storage) (f : Fields) (chunks chunks' entries : list value) (v : value) :
  message_fields email_data = Ok f ->
  strip (plain_body f) <> "" ->
  text_stored f clock ->
  chunk_text (plain_body f) = Ok chunks ->
  map_res (enrich f (utcnow_strftime clock)) chunks = Ok chunks' ->
  embed chunks' = Ok entries ->
  metadata_file st = Some (JSON v) ->
  (forall l, v <> VList l) ->
  exists e,
    fst (process_and_store_email email_data clock st) = Raise e /\
    (e = TypeError \/ e = AttributeError) /\
    metadata_file (snd (process_and_store_email email_data clock st)) = Some (JSON v).
Proof.
  intros Hf Hbody Hstored Hchunk Henrich Hembed Hfile Hnot.
  rewrite (process_unfold py_str get_text chunk_text embed refused email_data clock st f
             Hf Hbody Hstored).
  cbv zeta. rewrite Hchunk, Henrich, Hembed.
  unfold bind, append_metadata, bind, modify, load_metadata, lift. simpl.
  rewrite Hfile.
  destruct v as [| b | n | s | l | kv]; simpl.
  - exists TypeError. auto.
  - exists TypeError. auto.
  - exists TypeError. auto.
  - destruct s as [| c s]; simpl; exists AttributeError; auto.
  - now destruct (Hnot l).
  - destruct kv as [| [k x] kv]; simpl; exists AttributeError; auto.
Qed.

(** *** Batches *)

(** X16: over any sequence of ingestions the metadata file only grows at
    its end: the records it held are a prefix of the records it holds
    afterwards. *)
Theorem batch_only_appends (batch : list (value * Clock)) (st : Storage) :
  exists added,
    records (metadata_file (ingest_all batch st)) = records (metadata_file st) ++ added.
Proof.
  revert st. induction batch as [| [email_data clock] batch IH]; intros st; simpl.
  - exists []. now rewrite app_nil_r.
  - destruct (IH (snd (process_and_store_email email_data clock st))) as (added & ->).
    destruct (process_changes py_str get_text chunk_text embed refused email_data clock st)
      as [-> | (u & _ & [-> | (entry & _ & _ & ->)])].
    + now exists added.
    + now exists added.
    + exists (entry :: added). simpl. now rewrite <- app_assoc.
Qed.

(** X17: ids stay unique: an id that at most one record has before a
    sequence of ingestions is the id of at most one record after it,
    whatever the messages are and however their ingestions end. *)
Theorem batch_keeps_ids_unique (u : value) (batch : list (value * Clock)) (st : Storage) :
  is_scalar u = true ->
  (count_records u (metadata_file st) <= 1)%nat ->
  (count_records u (metadata_file (ingest_all batch st)) <= 1)%nat.
Proof.
  intros Hu. revert st.
  induction batch as [| [email_data clock] batch IH]; intros st Hcount; simpl.
  - exact Hcount.
  - apply IH.
    now apply (process_count py_str get_text chunk_text embed refused u email_data clock
                 st Hu).
Qed.

(** *** The start of an ingestion *)

(** X29: when the file system refuses the temporary file (an id with a
    ["/"] in it names a directory that is not there), the ingestion
    raises what [open] raises, after line 109 has printed and the
    directory has been made: no temporary file is written, and the index
    and the metadata file are as they were. *)
Theorem refused_temp_file_stops_ingestion (email_data : value) (clock : Clock)
    (st : Storage) (f : Fields) (e : exn) :
  message_fields email_data = Ok f ->
  strip (plain_body f) <> "" ->
  print (storing_text f) = Ok tt ->
  refused base_path = None ->
  refused (temp_file_path (uid f) (utcnow_strftime clock)) = Some e ->
  process_and_store_email email_data clock st = (Raise e, set_base_dir true st).
Proof.
  intros Hf Hbody Hprint Hbase Hpath.
  destruct (process_start py_str get_text chunk_text embed refused email_data clock st f
              Hf Hbody)
    as [(e' & He & _) | [(e' & _ & He & _) | [(e' & _ & _ & He & Hrun)
        | [(_ & _ & He & _) | (_ & _ & He & _)]]]];
    congruence.
Qed.

(** X30: a text with a surrogate in it is not written: the temporary
    file is created and left empty, the ingestion raises
    [UnicodeEncodeError], and the index and the metadata file are as
    they were. *)
Theorem unencodable_text_leaves_empty_file (email_data : value) (clock : Clock)
    (st : Storage) (f : Fields) :
  message_fields email_data = Ok f ->
  strip (plain_body f) <> "" ->
  print (storing_text f) = Ok tt ->
  refused base_path = None ->
  refused (temp_file_path (uid f) (utcnow_strftime clock)) = None ->
  has_lone_surrogate (plain_body f) = true ->
  process_and_store_email email_data clock st =
    (Raise UnicodeEncodeError,
     set_temp_files
       (set_key (temp_file_path (uid f) (utcnow_strftime clock)) "" (temp_files st))
       (set_base_dir true st)).
Proof.
  intros Hf Hbody Hprint Hbase Hpath Hbytes.
  destruct (process_start py_str get_text chunk_text embed refused email_data clock st f
              Hf Hbody)
    as [(e' & He & _) | [(e' & _ & He & _) | [(e' & _ & _ & He & _)
        | [(_ & _ & _ & _ & Hrun) | (_ & _ & _ & He)]]]];
    congruence.
Qed.

End IngestionFiles.

(** ** Fetching a message and handing it to the pipeline *)

Section FetchFacts.

Import Fetch.

Variable msal : list Call -> Call -> res value.
Variable client_get : list Call -> Call -> res Response.
Variable py_str : value -> string.
Variable get_text : value -> res string.
Variable chunk_text : string -> res (list value).
Variable embed : list value -> res (list value).
Variable refused : string -> option exn.

Local Abbreviation get_graph_api_token := (get_graph_api_token msal).
Local Abbreviation fetch_email_from_graph_api := (fetch_email_from_graph_api msal client_get).
Local Abbreviation trigger_email_processing :=
  (trigger_email_processing msal client_get py_str get_text chunk_text embed refused).
Local Abbreviation process_and_store_email :=
  (Ingestion.process_and_store_email py_str get_text chunk_text embed refused).

Lemma call_msal_keeps_storage (c : Call) : keeps storage (call_msal msal c).
Proof. intros w. reflexivity. Qed.

Lemma request_keeps_storage (c : Call) : keeps storage (request client_get c).
Proof. intros w. reflexivity. Qed.

Lemma get_graph_api_token_keeps_storage : keeps storage get_graph_api_token.
Proof.
  unfold Fetch.get_graph_api_token.
  apply keeps_bind; [apply call_msal_keeps_storage | intros _].
  apply keeps_bind; [apply call_msal_keeps_storage | intros result].
  apply keeps_bind; [| intros result'; apply keeps_lift].
  apply keeps_if; [apply call_msal_keeps_storage | apply keeps_ret].
Qed.

Lemma fetch_keeps_storage (resource : value) :
  keeps storage (fetch_email_from_graph_api resource).
Proof.
  unfold Fetch.fetch_email_from_graph_api.
  apply keeps_bind; [apply get_graph_api_token_keeps_storage | intros token].
  apply keeps_if; [apply keeps_ret |].
  apply keeps_try_except; [| intros e; apply keeps_ret].
  apply keeps_bind; [apply request_keeps_storage | intros response].
  apply keeps_bind; [apply keeps_lift | intros _; apply keeps_lift].
Qed.

(** The token acquisition issues no GET. *)
Lemma get_graph_api_token_calls (w : World) :
  exists added,
    calls (snd (get_graph_api_token w)) = calls w ++ added /\
    existsb is_get_message added = false.
Proof.
  unfold Fetch.get_graph_api_token, bind, call_msal, lift, ret. simpl.
  destruct (msal (calls w) ClientApplication) as [app | e]; simpl.
  2:{ now exists [ClientApplication]. }
  destruct (msal (calls w ++ [ClientApplication]) AcquireTokenSilent) as [result | e]; simpl.
  2:{ exists [ClientApplication; AcquireTokenSilent]. now rewrite <- app_assoc. }
  destruct (truthy result); simpl.
  - exists [ClientApplication; AcquireTokenSilent]. rewrite <- app_assoc.
    now destruct (dict_get result "access_token" VNone).
  - destruct (msal ((calls w ++ [ClientApplication]) ++ [AcquireTokenSilent])
                AcquireTokenForClient) as [result' | e]; simpl.
    + exists [ClientApplication; AcquireTokenSilent; AcquireTokenForClient].
      rewrite <- !app_assoc. now destruct (dict_get result' "access_token" VNone).
    + exists [ClientApplication; AcquireTokenSilent; AcquireTokenForClient].
      now rewrite <- !app_assoc.
Qed.

(** X18: without a token nothing is fetched: when the token acquisition
    returns a falsy token, [fetch_email_from_graph_api] returns [None]
    and no GET is issued. *)
Theorem fetch_without_token_issues_no_get (resource token : value) (w w1 : World) :
  get_graph_api_token w = (Ok token, w1) ->
  truthy token = false ->
  fetch_email_from_graph_api resource w = (Ok VNone, w1) /\
  exists added,
    calls (snd (fetch_email_from_graph_api resource w)) = calls w ++ added /\
    existsb is_get_message added = false.
Proof.
  intros Htoken Hfalsy.
  assert (Hrun : fetch_email_from_graph_api resource w = (Ok VNone, w1)).
  { unfold Fetch.fetch_email_from_graph_api, bind. rewrite Htoken, Hfalsy. reflexivity. }
  split; [exact Hrun |]. rewrite Hrun.
  destruct (get_graph_api_token_calls w) as (added & Hcalls & Hnone).
  rewrite Htoken in Hcalls. now exists added.
Qed.

(** X19: the fetch raises exactly when the token acquisition raises, and
    then with the same exception: a failure of the GET, a status that
    [raise_for_status] refuses and a body that does not decode are all
    turned into the result [None]. *)
Theorem fetch_raises_only_from_token (resource : value) (w : World) (e : exn) :
  fst (fetch_email_from_graph_api resource w) = Raise e <->
  fst (get_graph_api_token w) = Raise e.
Proof.
  unfold Fetch.fetch_email_from_graph_api, bind.
  destruct (get_graph_api_token w) as [[token | e'] w1]; simpl.
  - split; [| discriminate].
    destruct (truthy token); simpl; [| discriminate].
    unfold try_except, bind, request, lift.
    destruct (client_get (calls w1) (GetMessage resource token)) as [response | e1];
      simpl; [| discriminate].
    destruct (raise_for_status response) as [[] | e2]; simpl; [| discriminate].
    destruct (json response); discriminate.
  - reflexivity.
Qed.

(** X20: a result other than [None] is the decoded body of the GET for
    that resource, made with a truthy token, whose status
    [raise_for_status] accepted. *)
Theorem fetched_message_is_the_body (resource v : value) (w w' : World) :
  fetch_email_from_graph_api resource w = (Ok v, w') ->
  v <> VNone ->
  exists token w1 response,
    get_graph_api_token w = (Ok token, w1) /\
    truthy token = true /\
    client_get (calls w1) (GetMessage resource token) = Ok response /\
    raise_for_status response = Ok tt /\
    json response = Ok v /\
    w' = record_call (GetMessage resource token) w1.
Proof.
  unfold Fetch.fetch_email_from_graph_api, bind.
  destruct (get_graph_api_token w) as [[token | e'] w1]; [| discriminate].
  destruct (truthy token) eqn:Htruthy; simpl.
  2:{ intros H Hv. injection H as <- _. contradiction. }
  unfold try_except, bind, request, lift, ret.
  destruct (client_get (calls w1) (GetMessage resource token)) as [response | e1] eqn:Hget;
    simpl.
  2:{ intros H Hv. injection H as <- _. contradiction. }
  destruct (raise_for_status response) as [[] | e2] eqn:Hstatus; simpl.
  2:{ intros H Hv. injection H as <- _. contradiction. }
  destruct (json response) as [body | e3] eqn:Hjson; simpl.
  2:{ intros H Hv. injection H as <- _. contradiction. }
  intros H _. injection H as <- <-.
  exists token, w1, response. repeat split; assumption.
Qed.

(** X21: the task does to the files what the pipeline does with the
    fetched message, and nothing when there is none: a truthy fetched
    value is handed to [process_and_store_email], whose outcome is the
    outcome of the task; a falsy one ([None], an empty object) ends the
    task with the files as they were. *)
Theorem trigger_runs_pipeline_on_fetched (resource email_data : value)
    (clock : Ingestion.Clock) (w w' : World) :
  fetch_email_from_graph_api resource w = (Ok email_data, w') ->
  (truthy email_data = true ->
     trigger_email_processing resource clock w =
       (fst (process_and_store_email email_data clock (storage w)),
        {| calls := calls w';
           storage := snd (process_and_store_email email_data clock (storage w)) |})) /\
  (truthy email_data = false ->
     trigger_email_processing resource clock w = (Ok tt, w') /\ storage w' = storage w).
Proof.
  intros Hfetch.
  pose proof (fetch_keeps_storage resource w) as Hstorage.
  rewrite Hfetch in Hstorage. simpl in Hstorage.
  unfold Fetch.trigger_email_processing, bind. rewrite Hfetch. split; intros Htruthy;
    rewrite Htruthy.
  - unfold on_storage. rewrite Hstorage.
    now destruct (process_and_store_email email_data clock (storage w)).
  - split; [reflexivity | exact Hstorage].
Qed.

End FetchFacts.

(** ** The subscription manager: finding, deleting, renewing, recovering *)

Section SubscriptionMore.

Import Subscription.

Variable msal : list Call -> Call -> res value.
Variable http : list Call -> Call -> res HttpResponse.
Variable utcnow : list Call -> Z.
Variable isoformat : Z -> string.
Variable CALLBACK_URL : value.
Variable RESOURCE : string.

Local Abbreviation get_access_token := (get_access_token msal).
Local Abbreviation find_existing := (find_existing RESOURCE).
Local Abbreviation other_resource := (other_resource RESOURCE).
Local Abbreviation get_existing_subscription := (get_existing_subscription http RESOURCE).
Local Abbreviation delete_all_subscriptions := (delete_all_subscriptions http).
Local Abbreviation create_subscription :=
  (create_subscription http utcnow isoformat CALLBACK_URL RESOURCE).
Local Abbreviation renew_subscription := (renew_subscription msal http utcnow isoformat).
Local Abbreviation run_scheduled_check :=
  (run_scheduled_check msal http utcnow isoformat CALLBACK_URL RESOURCE).
Local Abbreviation tick := (tick msal http utcnow isoformat CALLBACK_URL RESOURCE).
Local Abbreviation ticks := (ticks msal http utcnow isoformat CALLBACK_URL RESOURCE).

Lemma find_existing_none (subs : list value) (w : World) :
  Forall other_resource subs -> find_existing subs w = (Ok false, w).
Proof.
  induction 1 as [| sub subs (r & Hr & Hne) _ IH]; simpl; [reflexivity |].
  unfold bind at 1. unfold lift at 1. rewrite Hr, Hne. exact IH.
Qed.

Lemma find_existing_first (before after : list value) (sub r id : value) (w : World) :
  Forall other_resource before ->
  dict_get sub "resource" VNone = Ok r ->
  py_eq r (VStr RESOURCE) = true ->
  dict_get sub "id" VNone = Ok id ->
  find_existing (before ++ sub :: after) w = (Ok true, set_current_subscription_id id w).
Proof.
  intros Hbefore Hr Heq Hid.
  induction Hbefore as [| x before (r' & Hr' & Hne) _ IH]; simpl.
  - unfold bind at 1. unfold lift at 1. rewrite Hr, Heq.
    unfold bind, lift, modify, ret. now rewrite Hid.
  - unfold bind at 1. unfold lift at 1. rewrite Hr', Hne. exact IH.
Qed.


(** X23: [get_existing_subscription] returns [False] and leaves the
    cached id as it was when the listing is answered with another status
    than 200, and when it is answered with 200 and no listed subscription
    is for the target resource. *)
Theorem existing_subscription_absent (token : value) (w : World) (response : HttpResponse) :
  http (calls w) (GetSubscriptions token) = Ok response ->
  (status_code response <> 200%Z ->
     get_existing_subscription token w =
       (Ok false, record_call (GetSubscriptions token) w)) /\
  (forall body subscriptions subs,
     status_code response = 200%Z ->
     json response = Ok body ->
     dict_get body "value" (VList []) = Ok subscriptions ->
     py_iter subscriptions = Ok subs ->
     Forall other_resource subs ->
     get_existing_subscription token w =
       (Ok false, record_call (GetSubscriptions token) w)).
Proof.
  intros Hget. split.
  - intros Hstatus. unfold Subscription.get_existing_subscription.
    unfold bind at 1. unfold request at 1. rewrite Hget.
    destruct (Z.eqb_spec (status_code response) 200); [contradiction | reflexivity].
  - intros body subscriptions subs Hstatus Hjson Hvalue Hiter Hsubs.
    unfold Subscription.get_existing_subscription.
    unfold bind at 1. unfold request at 1. rewrite Hget, Hstatus. simpl Z.eqb. cbv iota.
    unfold bind at 1. unfold lift at 1. rewrite Hjson.
    unfold bind at 1. unfold lift at 1. rewrite Hvalue.
    unfold bind at 1. unfold lift at 1. rewrite Hiter.
    now apply find_existing_none.
Qed.

(** The deleting loop: one DELETE per listed subscription, in order. *)
Lemma delete_loop (token : value) (subs ids : list value) (w : World) :
  (forall history id, exists r, http history (DeleteSubscription id token) = Ok r) ->
  map_res (fun sub => dict_get sub "id" VNone) subs = Ok ids ->
  exists w',
    for_each subs (fun sub =>
      sub_id <- lift (dict_get sub "id" VNone) ;;
      del_resp <- request http (DeleteSubscription sub_id token) ;;
      ret tt) w = (Ok tt, w') /\
    calls w' = calls w ++ map (fun id => DeleteSubscription id token) ids /\
    globals w' = globals w.
Proof.
  intros Hhttp. revert ids w. induction subs as [| sub subs IH]; simpl; intros ids w Hids.
  - injection Hids as <-. exists w. simpl. now rewrite app_nil_r.
  - unfold rbind in Hids. destruct (dict_get sub "id" VNone) as [id |] eqn:Hid;
      [| discriminate].
    destruct (map_res (fun sub0 => dict_get sub0 "id" VNone) subs) as [ids' |] eqn:Hrest;
      [| discriminate].
    injection Hids as <-.
    destruct (Hhttp (calls w) id) as (r & Hr).
    destruct (IH ids' (record_call (DeleteSubscription id token) w) eq_refl)
      as (w' & Hrun & Hcalls & Hglobals).
    exists w'. split; [| split].
    + unfold bind at 1. unfold bind at 1. unfold lift at 1.
      unfold bind at 1. unfold request at 1. rewrite Hr. unfold ret at 1. exact Hrun.
    + rewrite Hcalls. simpl. now rewrite <- app_assoc.
    + rewrite Hglobals. reflexivity.
Qed.


(** *** Renewals and ticks *)


Lemma get_access_token_calls (w : World) :
  exists added,
    calls (snd (get_access_token w)) = calls w ++ added /\
    forallb is_renew_call added = true.
Proof.
  unfold Subscription.get_access_token, bind, call_msal, lift, ret. simpl.
  destruct (msal (calls w) ClientApplication) as [app | e]; simpl.
  2:{ now exists [ClientApplication]. }
  destruct (msal (calls w ++ [ClientApplication]) AcquireTokenSilent) as [result | e]; simpl.
  2:{ exists [ClientApplication; AcquireTokenSilent]. now rewrite <- app_assoc. }
  destruct (truthy result); simpl.
  - exists [ClientApplication; AcquireTokenSilent]. rewrite <- app_assoc.
    now destruct (dict_get result "access_token" VNone).
  - destruct (msal ((calls w ++ [ClientApplication]) ++ [AcquireTokenSilent])
                AcquireTokenForClient) as [result' | e]; simpl.
    + exists [ClientApplication; AcquireTokenSilent; AcquireTokenForClient].
      rewrite <- !app_assoc. now destruct (dict_get result' "access_token" VNone).
    + exists [ClientApplication; AcquireTokenSilent; AcquireTokenForClient].
      now rewrite <- !app_assoc.
Qed.

Lemma renew_subscription_calls (w : World) :
  exists added,
    calls (snd (renew_subscription w)) = calls w ++ added /\
    forallb is_renew_call added = true.
Proof.
  unfold Subscription.renew_subscription.
  unfold bind at 1. unfold gets at 1.
  destruct (truthy (current_subscription_id w)); cbn [negb].
  2:{ exists []. rewrite app_nil_r. split; reflexivity. }
  unfold bind at 1.
  destruct (get_access_token_calls w) as (added & Hcalls & Hall).
  destruct (get_access_token w) as [[token | e] w1]; simpl in Hcalls.
  2:{ exists added. split; [exact Hcalls | exact Hall]. }
  destruct (truthy token); cbn [negb].
  2:{ exists added. split; [exact Hcalls | exact Hall]. }
  unfold bind, gets, request, ret. simpl.
  match goal with
  | |- context [http (calls w1) ?c] =>
      exists (added ++ [c]); destruct (http (calls w1) c) as [response | e]
  end.
  - destruct (Z.eqb (status_code response) 200); simpl;
      rewrite Hcalls, <- app_assoc, forallb_app, Hall; split; reflexivity.
  - simpl. rewrite Hcalls, <- app_assoc, forallb_app, Hall. split; reflexivity.
Qed.

(** With an id cached, a tick is a renewal, followed by the change of
    schedule when the renewal succeeded in the fast state. *)
Lemma cached_tick (w : World) :
  truthy (current_subscription_id w) = true ->
  exists w',
    tick w = w' /\
    calls w' = calls (snd (renew_subscription w)) /\
    current_subscription_id w' = current_subscription_id w /\
    ((fst (renew_subscription w) = Ok true /\ use_fast_scheduler w = true) \/
     w' = snd (renew_subscription w)).
Proof.
  intros Hid. exists (tick w). split; [reflexivity |].
  remember (tick w) as w' eqn:Htick.
  unfold Subscription.tick, Subscription.run_scheduled_check in Htick.
  unfold bind at 1 in Htick. unfold gets at 1 in Htick. rewrite Hid in Htick.
  unfold bind at 1 in Htick.
  pose proof (renew_subscription_keeps_globals msal http utcnow isoformat w) as Hglobals.
  destruct (renew_subscription w) as [[success | e] w1]; simpl in Hglobals; simpl fst;
    simpl snd; unfold globals in Hglobals; injection Hglobals as Hi Hf Hj.
  2:{ simpl in Htick. subst w'.
      split; [reflexivity | split; [exact Hi | right; reflexivity]]. }
  unfold bind at 1 in Htick. unfold gets at 1 in Htick. rewrite Hf in Htick.
  destruct success, (use_fast_scheduler w); simpl andb in Htick; cbv iota in Htick;
    try (simpl in Htick; subst w';
         split; [reflexivity | split; [exact Hi | right; reflexivity]]).
  unfold bind, modify, remove_job, add_job in Htick. simpl in Htick.
  destruct (assoc "scheduled_check" (jobs w1)); simpl in Htick.
  - destruct (assoc "scheduled_check" (remove_key "scheduled_check" (jobs w1)));
      simpl in Htick; subst w';
      (split; [reflexivity | split; [exact Hi | left; split; reflexivity]]).
  - subst w'. split; [reflexivity | split; [exact Hi | left; split; reflexivity]].
Qed.

(** X26: a tick with a cached id does what the renewal does and nothing
    else, unless the renewal succeeds while the fast flag is set: a
    failed renewal, and a successful one in the slow state, leave the
    flag and the jobs as they are. *)
Theorem tick_is_renewal_unless_switching (w : World) :
  truthy (current_subscription_id w) = true ->
  ~ (fst (renew_subscription w) = Ok true /\ use_fast_scheduler w = true) ->
  tick w = snd (renew_subscription w) /\
  schedule (tick w) = schedule w.
Proof.
  intros Hid Hnot. destruct (cached_tick w Hid) as (w' & Htick & _ & _ & [H | H]).
  - contradiction.
  - rewrite Htick, H. split; [reflexivity |].
    apply globals_schedule, (renew_subscription_keeps_globals msal http utcnow isoformat w).
Qed.

(** X27: a cached id is never dropped: once an id is cached, every later
    tick keeps it, and the only calls ever made again are those of
    renewals (the MSAL client and PATCH); no listing, no DELETE and no
    POST is issued, whatever the provider answers to the renewals. *)
Theorem cached_id_is_never_dropped (n : nat) (w : World) :
  truthy (current_subscription_id w) = true ->
  current_subscription_id (ticks n w) = current_subscription_id w /\
  exists added,
    calls (ticks n w) = calls w ++ added /\ forallb is_renew_call added = true.
Proof.
  revert w. induction n as [| n IH]; intros w Hid; simpl.
  - split; [reflexivity |]. exists []. now rewrite app_nil_r.
  - destruct (cached_tick w Hid) as (w' & Htick & Hcalls & Hsame & _).
    rewrite Htick.
    assert (Hid' : truthy (current_subscription_id w') = true) by now rewrite Hsame.
    destruct (IH w' Hid') as (Hkeep & added & Hcalls' & Hall).
    split; [now rewrite Hkeep |].
    destruct (renew_subscription_calls w) as (added0 & Hcalls0 & Hall0).
    exists (added0 ++ added). rewrite Hcalls', Hcalls, Hcalls0, <- app_assoc, forallb_app.
    now rewrite Hall0, Hall.
Qed.

(** X28: the recovery stops at its first failure: with no cached id, a
    falsy token ends the tick before any request to the mail provider,
    and a creation that returns [False] ends it without a renewal; in
    both cases the flag and the jobs are as they were. *)
Theorem recovery_stops_at_first_failure (w w1 : World) (token : value) :
  truthy (current_subscription_id w) = false ->
  get_access_token w = (Ok token, w1) ->
  (truthy token = false -> run_scheduled_check w = (Ok tt, w1)) /\
  (truthy token = true ->
     forall w2 w3,
       delete_all_subscriptions token w1 = (Ok tt, w2) ->
       create_subscription token w2 = (Ok false, w3) ->
       run_scheduled_check w = (Ok tt, w3) /\ schedule w3 = schedule w).
Proof.
  intros Hnone Htoken. split.
  - intros Hfalsy. unfold Subscription.run_scheduled_check.
    unfold bind at 1. unfold gets at 1. rewrite Hnone.
    unfold bind at 1. rewrite Htoken, Hfalsy. reflexivity.
  - intros Htruthy w2 w3 Hdelete Hcreate. split.
    + unfold Subscription.run_scheduled_check.
      unfold bind at 1. unfold gets at 1. rewrite Hnone.
      unfold bind at 1. rewrite Htoken, Htruthy. cbn [negb].
      unfold bind at 1. rewrite Hdelete.
      unfold bind at 1. rewrite Hcreate. reflexivity.
    + pose proof (get_access_token_keeps_globals msal w) as K1. rewrite Htoken in K1.
      pose proof (delete_all_subscriptions_keeps_globals http token w1) as K2.
      rewrite Hdelete in K2.
      pose proof (create_subscription_keeps_schedule http utcnow isoformat
                    CALLBACK_URL RESOURCE token w2) as K3.
      rewrite Hcreate in K3. simpl in K1, K2, K3.
      apply globals_schedule in K1, K2. now rewrite K3, K2, K1.
Qed.

End SubscriptionMore.

(** ** Further runs on the samples *)

Section GatewayBatchRuns.

Import Gateway.

Lemma batch_of_two_sample :
  handle_graph_webhook
    {| method := "POST"; query_params := [];
       json := JSON (VDict [("value",
                 VList [VDict [("resource", VStr "users/ada/messages/1")];
                        VDict [("changeType", VStr "created")]])]) |}
    [VStr "users/ada/messages/0"] =
  (Ok (JSONResponse (VDict [("status", VStr "Notification received")]) 202),
   [VStr "users/ada/messages/0"] ++ [VStr "users/ada/messages/1"; VStr ""]).
Proof.
  eapply (batch_schedules_each_resource
            {| method := "POST"; query_params := [];
               json := JSON (VDict [("value",
                         VList [VDict [("resource", VStr "users/ada/messages/1")];
                                VDict [("changeType", VStr "created")]])]) |}
            [VStr "users/ada/messages/0"]);
    try reflexivity.
  repeat constructor.
Defined.

Lemma broken_batch_sample :
  handle_graph_webhook
    {| method := "POST"; query_params := [];
       json := JSON (VDict [("value",
                 VList [VDict [("resource", VStr "users/ada/messages/1")];
                        VDict [("resource", VStr Sample.surrogate)];
                        VDict [("resource", VStr "users/ada/messages/2")]])]) |}
    [] =
  (Ok (JSONResponse (VDict [("error", VStr "Invalid JSON")]) 400),
   [] ++ [VStr "users/ada/messages/1"]).
Proof.
  eapply (broken_batch_keeps_earlier_tasks
            {| method := "POST"; query_params := [];
               json := JSON (VDict [("value",
                         VList [VDict [("resource", VStr "users/ada/messages/1")];
                                VDict [("resource", VStr Sample.surrogate)];
                                VDict [("resource", VStr "users/ada/messages/2")]])]) |}
            [] _ _ (VDict [("resource", VStr Sample.surrogate)])
            [VDict [("resource", VStr "users/ada/messages/1")]]
            [VDict [("resource", VStr "users/ada/messages/2")]] _ UnicodeEncodeError);
    try reflexivity.
  - repeat constructor.
  - right. exists (VStr Sample.surrogate). split; reflexivity.
Defined.

Lemma status_202_sample :
  method {| method := "POST"; query_params := []; json := JSON (VDict []) |} = "POST" /\
  exists payload, JSON (VDict []) = JSON payload.
Proof.
  destruct (status_tells_the_branch
              {| method := "POST"; query_params := []; json := JSON (VDict []) |}
              [] []
              (JSONResponse (VDict [("status", VStr "Notification received")]) 202)
              eq_refl) as (_ & H202 & _).
  destruct (H202 eq_refl) as (Hm & _ & Hj). split; assumption.
Defined.

End GatewayBatchRuns.

Section IngestionFileRuns.

Import Ingestion.

Local Abbreviation run :=
  (process_and_store_email Sample.str Sample.get_text Sample.chunk_text Sample.embed
     Sample.refused).
Local Abbreviation fields := (message_fields Sample.get_text).

Lemma whitespace_guard_sample :
  run Sample.blank_nbsp Sample.clock1 empty_storage = (Ok tt, empty_storage) /\
  base_dir (snd (run Sample.hello Sample.clock1 empty_storage)) = true.
Proof.
  split.
  - edestruct (only_whitespace_bodies_are_skipped Sample.str Sample.get_text
                 Sample.chunk_text Sample.embed Sample.refused Sample.blank_nbsp
                 Sample.clock1 empty_storage) as [Hskip _].
    + reflexivity.
    + exact (Hskip eq_refl).
  - edestruct (only_whitespace_bodies_are_skipped Sample.str Sample.get_text
                 Sample.chunk_text Sample.embed Sample.refused Sample.hello
                 Sample.clock1 empty_storage) as [_ Hgo].
    + reflexivity.
    + exact (Hgo eq_refl).
Defined.

Lemma defaults_sample :
  exists f,
    fields (VDict [("id", VStr "AAMkAD-5")]) = Ok f /\
    subject f = VStr "No Subject" /\ sender f = VStr "unknown" /\ cc_list f = [].
Proof.
  eexists. split; [reflexivity |].
  pose proof (absent_fields_take_defaults Sample.get_text [("id", VStr "AAMkAD-5")] _ eq_refl)
    as (_ & Hsubject & Hfrom & _ & Hcc & _).
  split; [exact (Hsubject eq_refl) | split; [exact (proj1 (Hfrom eq_refl)) |]].
  exact (Hcc eq_refl).
Defined.

Lemma draft_raises_sample :
  run Sample.draft Sample.clock1 empty_storage = (Raise AttributeError, empty_storage).
Proof.
  apply (sender_not_an_object_raises Sample.str Sample.get_text Sample.chunk_text
           Sample.embed Sample.refused
           [("id", VStr "AAMkAD-4"); ("subject", VStr "Draft"); ("from", VNone);
            ("body", VDict [("content", VStr "<p>to be sent</p>")])]
           VNone Sample.clock1 empty_storage).
  - reflexivity.
  - discriminate.
Defined.

Lemma temp_file_removed_sample :
  temp_files (snd (run Sample.hello Sample.clock1 empty_storage)) = [].
Proof.
  edestruct (returned_ingestion_leaves_no_temp_file Sample.str Sample.get_text
               Sample.chunk_text Sample.embed Sample.refused Sample.hello Sample.clock1
               empty_storage)
    as [Hgone _].
  - reflexivity.
  - simpl. discriminate.
  - reflexivity.
  - reflexivity.
Defined.

Lemma temp_file_left_sample :
  let st' :=
    snd (process_and_store_email Sample.str Sample.get_text Sample.chunk_text
           Sample.embed_failing Sample.refused Sample.hello Sample.clock1 empty_storage) in
  assoc "vector_stores/email_data/email_AAMkAD-1_20240101_120000.txt" (temp_files st')
    = Some "Hello team" /\
  metadata_file st' = None.
Proof.
  edestruct (raised_ingestion_leaves_temp_file Sample.str Sample.get_text
               Sample.chunk_text Sample.embed_failing Sample.refused Sample.hello
               Sample.clock1 empty_storage) as [Htemp Hmeta].
  - reflexivity.
  - simpl. discriminate.
  - repeat split.
  - reflexivity.
  - split; [exact Htemp | exact Hmeta].
Defined.

(** The same message delivered twice: one record, two index entries. *)
Lemma redelivery_extends_index_sample :
  let st1 := snd (run Sample.hello Sample.clock1 empty_storage) in
  let st2 := snd (run Sample.hello Sample.clock2 st1) in
  (exists first second, index_file st2 = Some ([first] ++ [second])) /\
  List.length (records (metadata_file st2)) = 1%nat.
Proof.
  intros st1 st2. split; [| reflexivity].
  eexists. eexists.
  eapply (index_is_extended_regardless Sample.str Sample.get_text Sample.chunk_text
            Sample.embed Sample.refused Sample.hello Sample.clock2 st1);
    try reflexivity.
  - simpl. discriminate.
  - repeat split.
Defined.

Lemma enrich_sample :
  exists chunk' metadata',
    enrich {| uid := VStr "AAMkAD-1"; subject := VStr "Quarterly report";
              sender := VStr "ada@example.com"; sender_name := VStr "Ada";
              sent_time := VStr "2024-01-01T11:59:00Z"; cc_list := [];
              has_attachments := VBool false; plain_body := "Hello team" |}
      "20240101_120000"
      (VDict [("text", VStr "Hello team");
              ("metadata", VDict [("source_type", VStr "email")])]) = Ok chunk' /\
    dict_item chunk' "metadata" = Ok (VDict metadata') /\
    assoc "email_id" metadata' = Some (VStr "AAMkAD-1") /\
    assoc "source_type" metadata' = Some (VStr "email").
Proof.
  destruct (enrich_sets_message_keys
              {| uid := VStr "AAMkAD-1"; subject := VStr "Quarterly report";
                 sender := VStr "ada@example.com"; sender_name := VStr "Ada";
                 sent_time := VStr "2024-01-01T11:59:00Z"; cc_list := [];
                 has_attachments := VBool false; plain_body := "Hello team" |}
              "20240101_120000"
              [("text", VStr "Hello team");
               ("metadata", VDict [("source_type", VStr "email")])]
              [("source_type", VStr "email")] eq_refl)
    as (chunk' & metadata' & Hrun & Hitem & (Hid & _) & Hother & _).
  exists chunk', metadata'. repeat split; try assumption.
  rewrite Hother; [reflexivity |].
  simpl. intros [H | [H | [H | [H | [H | [H | [H | []]]]]]]]; discriminate H.
Defined.

Lemma bare_chunk_sample :
  let result :=
    process_and_store_email Sample.str Sample.get_text Sample.chunk_bare Sample.embed
      Sample.refused Sample.hello Sample.clock1 empty_storage in
  fst result = Raise KeyError /\
  index_file (snd result) = None /\ metadata_file (snd result) = None.
Proof.
  eapply (chunk_without_metadata_raises Sample.str Sample.get_text Sample.chunk_bare
            Sample.embed Sample.refused Sample.hello Sample.clock1 empty_storage _ [] [] []);
    try reflexivity.
  - simpl. discriminate.
  - repeat split.
Defined.

Lemma fresh_id_sample :
  let st1 := snd (run Sample.hello Sample.clock1 empty_storage) in
  exists entry,
    fst (run Sample.other Sample.clock2 st1) = Ok tt /\
    metadata_file (snd (run Sample.other Sample.clock2 st1)) =
      Some (JSON (VList (records (metadata_file st1) ++ [entry]))) /\
    dict_get entry "email_id" VNone = Ok (VStr "AAMkAD-2") /\
    dict_get entry "chunk_count" VNone = Ok (VInt 1) /\
    dict_get entry "index_path" VNone = Ok (VStr "vector_stores/email_data/index_email.faiss").
Proof.
  intros st1.
  edestruct (fresh_id_is_appended_last Sample.str Sample.get_text Sample.chunk_text
               Sample.embed Sample.refused Sample.other Sample.clock2 st1)
    as (entry & Hreturns & Hfile & Hid & Hcount & Hpath).
  - reflexivity.
  - simpl. discriminate.
  - repeat split.
  - reflexivity.
  - reflexivity.
  - reflexivity.
  - reflexivity.
  - reflexivity.
  - exists entry. repeat split; assumption.
Defined.

Lemma junk_after_match_sample :
  append_metadata (VStr "AAMkAD-1") (VDict [("email_id", VStr "AAMkAD-1")])
    Sample.store_with_junk = (Ok tt, set_lock_file true Sample.store_with_junk) /\
  append_metadata (VStr "AAMkAD-9") (VDict [("email_id", VStr "AAMkAD-9")])
    Sample.store_with_junk = (Raise AttributeError, set_lock_file true Sample.store_with_junk).
Proof.
  split.
  - apply (search_stops_at_first_match (VStr "AAMkAD-1")
             (VDict [("email_id", VStr "AAMkAD-1")]) Sample.store_with_junk
             [VDict [("email_id", VStr "AAMkAD-2")]] [VInt 7]
             (VDict [("email_id", VStr "AAMkAD-1")]));
      reflexivity.
  - apply (search_stops_at_first_match (VStr "AAMkAD-9")
             (VDict [("email_id", VStr "AAMkAD-9")]) Sample.store_with_junk
             [VDict [("email_id", VStr "AAMkAD-2")]; VDict [("email_id", VStr "AAMkAD-1")]]
             [] (VInt 7));
      reflexivity.
Defined.

Lemma object_metadata_sample :
  exists e,
    fst (run Sample.hello Sample.clock1 Sample.store_with_object) = Raise e /\
    (e = TypeError \/ e = AttributeError) /\
    metadata_file (snd (run Sample.hello Sample.clock1 Sample.store_with_object)) =
      Some (JSON (VDict [("records", VList [])])).
Proof.
  eapply (metadata_not_a_list_raises Sample.str Sample.get_text Sample.chunk_text
            Sample.embed Sample.refused Sample.hello Sample.clock1
            Sample.store_with_object);
    try reflexivity.
  - simpl. discriminate.
  - repeat split.
  - discriminate.
Defined.

Lemma slash_in_id_sample :
  run Sample.hello_slash Sample.clock1 empty_storage =
    (Raise (OtherError "FileNotFoundError"), set_base_dir true empty_storage).
Proof.
  eapply (refused_temp_file_stops_ingestion Sample.str Sample.get_text Sample.chunk_text
            Sample.embed Sample.refused Sample.hello_slash Sample.clock1 empty_storage);
    try reflexivity.
  simpl. discriminate.
Defined.

Lemma unencodable_text_sample :
  fst (run Sample.hello_unencodable Sample.clock1 empty_storage) = Raise UnicodeEncodeError /\
  temp_files (snd (run Sample.hello_unencodable Sample.clock1 empty_storage)) =
    [("vector_stores/email_data/email_AAMkAD-7_20240101_120000.txt", "")] /\
  index_file (snd (run Sample.hello_unencodable Sample.clock1 empty_storage)) = None /\
  metadata_file (snd (run Sample.hello_unencodable Sample.clock1 empty_storage)) = None.
Proof.
  rewrite (unencodable_text_leaves_empty_file Sample.str Sample.get_text Sample.chunk_text
             Sample.embed Sample.refused Sample.hello_unencodable Sample.clock1
             empty_storage _ eq_refl).
  - repeat split.
  - simpl. discriminate.
  - reflexivity.
  - reflexivity.
  - reflexivity.
  - reflexivity.
Defined.

Lemma unique_ids_sample :
  (count_records (VStr "AAMkAD-1")
     (metadata_file
        (ingest_all Sample.str Sample.get_text Sample.chunk_text Sample.embed
           Sample.refused
           [(Sample.hello, Sample.clock1); (Sample.other, Sample.clock1);
            (Sample.hello_again, Sample.clock2)] empty_storage)) <= 1)%nat.
Proof.
  apply (batch_keeps_ids_unique Sample.str Sample.get_text Sample.chunk_text Sample.embed
           Sample.refused (VStr "AAMkAD-1")
           [(Sample.hello, Sample.clock1); (Sample.other, Sample.clock1);
            (Sample.hello_again, Sample.clock2)] empty_storage).
  - reflexivity.
  - vm_compute. lia.
Defined.

End IngestionFileRuns.

Section FetchRuns.

Import Fetch.

Local Abbreviation fetch := (fetch_email_from_graph_api Sample.fetch_msal Sample.client_get).
Local Abbreviation fetch_denied :=
  (fetch_email_from_graph_api Sample.fetch_msal_denied Sample.client_get).
Local Abbreviation trigger :=
  (trigger_email_processing Sample.fetch_msal Sample.client_get
     Sample.str Sample.get_text Sample.chunk_text Sample.embed Sample.refused).

Lemma fetch_denied_sample :
  fst (fetch_denied (VStr "users/ada/messages/1") Sample.fetch_world) = Ok VNone /\
  calls (snd (fetch_denied (VStr "users/ada/messages/1") Sample.fetch_world)) =
    [ClientApplication; AcquireTokenSilent; AcquireTokenForClient].
Proof.
  edestruct (fetch_without_token_issues_no_get Sample.fetch_msal_denied Sample.client_get
               (VStr "users/ada/messages/1")) as [Hrun _].
  - reflexivity.
  - reflexivity.
  - rewrite Hrun. split; reflexivity.
Defined.

Lemma fetched_sample :
  exists token w1 response,
    get_graph_api_token Sample.fetch_msal Sample.fetch_world = (Ok token, w1) /\
    truthy token = true /\
    Sample.client_get (calls w1) (GetMessage (VStr "users/ada/messages/1") token)
      = Ok response /\
    raise_for_status response = Ok tt /\
    json response = Ok Sample.hello /\
    snd (fetch (VStr "users/ada/messages/1") Sample.fetch_world) =
      record_call (GetMessage (VStr "users/ada/messages/1") token) w1.
Proof.
  eapply (fetched_message_is_the_body Sample.fetch_msal Sample.client_get
            (VStr "users/ada/messages/1") Sample.hello Sample.fetch_world).
  - reflexivity.
  - discriminate.
Defined.

Lemma trigger_sample :
  fst (trigger (VStr "users/ada/messages/1") Sample.clock1 Sample.fetch_world) = Ok tt /\
  Ingestion.count_records (VStr "AAMkAD-1")
    (Ingestion.metadata_file
       (storage (snd (trigger (VStr "users/ada/messages/1") Sample.clock1
                        Sample.fetch_world)))) = 1%nat.
Proof.
  edestruct (trigger_runs_pipeline_on_fetched Sample.fetch_msal Sample.client_get
               Sample.str Sample.get_text Sample.chunk_text Sample.embed Sample.refused
               (VStr "users/ada/messages/1") Sample.hello Sample.clock1
               Sample.fetch_world) as [Htruthy _].
  - reflexivity.
  - rewrite (Htruthy eq_refl). split; reflexivity.
Defined.

End FetchRuns.

Section SubscriptionMoreRuns.

Import Subscription.

Local Abbreviation existing :=
  (get_existing_subscription Sample.http_listing Sample.target_resource).
Local Abbreviation renew :=
  (renew_subscription Sample.msal Sample.http Sample.utcnow Sample.isoformat).
Local Abbreviation check :=
  (run_scheduled_check Sample.msal Sample.http Sample.utcnow Sample.isoformat
     Sample.callback_url Sample.target_resource).
Local Abbreviation check_denied :=
  (run_scheduled_check Sample.msal_denied Sample.http Sample.utcnow Sample.isoformat
     Sample.callback_url Sample.target_resource).
Local Abbreviation checks_refused :=
  (ticks Sample.msal Sample.http_refusing Sample.utcnow Sample.isoformat
     Sample.callback_url Sample.target_resource).


Lemma existing_absent_sample :
  get_existing_subscription Sample.http Sample.target_resource (VStr "eyJ0")
    initial_world =
  (Ok false, record_call (GetSubscriptions (VStr "eyJ0")) initial_world).
Proof.
  edestruct (existing_subscription_absent Sample.http Sample.target_resource
               (VStr "eyJ0") initial_world) as [_ Hnone].
  - reflexivity.
  - eapply Hnone; try reflexivity. constructor.
Defined.



Lemma slow_tick_sample :
  let w := set_use_fast_scheduler false Sample.world_cached in
  tick Sample.msal Sample.http Sample.utcnow Sample.isoformat
    Sample.callback_url Sample.target_resource w = snd (renew w) /\
  schedule (tick Sample.msal Sample.http Sample.utcnow Sample.isoformat
              Sample.callback_url Sample.target_resource w) = schedule w.
Proof.
  intros w.
  apply (tick_is_renewal_unless_switching Sample.msal Sample.http Sample.utcnow
           Sample.isoformat Sample.callback_url Sample.target_resource w).
  - reflexivity.
  - intros [_ H]. discriminate H.
Defined.

Lemma cached_id_sample :
  current_subscription_id (checks_refused 3 Sample.world_cached) = VStr "sub-1" /\
  exists added,
    calls (checks_refused 3 Sample.world_cached) = calls Sample.world_cached ++ added /\
    forallb is_renew_call added = true.
Proof.
  apply (cached_id_is_never_dropped Sample.msal Sample.http_refusing Sample.utcnow
           Sample.isoformat Sample.callback_url Sample.target_resource 3
           Sample.world_cached).
  reflexivity.
Defined.

Lemma recovery_denied_sample :
  let w := start_scheduler initial_world in
  fst (check_denied w) = Ok tt /\
  calls (snd (check_denied w)) =
    [ClientApplication; AcquireTokenSilent; AcquireTokenForClient].
Proof.
  intros w.
  edestruct (recovery_stops_at_first_failure Sample.msal_denied Sample.http Sample.utcnow
               Sample.isoformat Sample.callback_url Sample.target_resource w)
    as [Hdenied _].
  - reflexivity.
  - reflexivity.
  - rewrite (Hdenied eq_refl). split; reflexivity.
Defined.

End SubscriptionMoreRuns.
